(** * pyviz: the dataset validator and the Python code generator

    Shallow embedding of
    - [generateMockPythonCode] and the static catalogs of
      [frontend/src/mock.js],
    - [validateAndParseJson] and [handleJsonChange] of
      [frontend/src/components/DataInput.jsx],
    - the customization state and [updateCustomization] of the
      ChartBuilder component,
    followed by the properties of the specification stated on them. *)

From Stdlib Require Import String Ascii List ZArith Bool Lia.
From Stdlib Require Import Numbers.DecimalString Numbers.DecimalZ Numbers.DecimalPos.
From Stdlib Require Import Numbers.DecimalFacts.
From ExtLib Require Import Structures.Monad Structures.MonadExc Data.Monads.EitherMonad.
Import ListNotations.
Import MonadNotation.

Local Open Scope string_scope.
Local Open Scope Z_scope.
Local Open Scope monad_scope.

(* ================================================================== *)
(** ** Text *)
(* ================================================================== *)

(** The line feed and the double quote, which cannot be written inside
    a string literal. *)
Definition nl : string := String "010"%char "".
Definition dq : string := String "034"%char "".

(** A template literal is written line by line: [lines] joins the lines
    with line feeds, as the source text of the literal does. *)
Definition lines (ls : list string) : string := String.concat nl ls.

(** [String.prototype.includes]: [needle] occurs in [hay]. *)
Fixpoint includes (needle hay : string) : bool :=
  String.prefix needle hay
  || match hay with
     | EmptyString => false
     | String _ rest => includes needle rest
     end.

(** The same, as a proposition. *)
Definition Includes (needle hay : string) : Prop :=
  exists before after, hay = before ++ needle ++ after.

Fixpoint repeat_string (s : string) (n : nat) : string :=
  match n with
  | O => ""
  | S n' => s ++ repeat_string s n'
  end.

(* ================================================================== *)
(** ** JavaScript values *)
(* ================================================================== *)

(** A finite JavaScript number, held in the decimal form
    [mant * 10^(-scale)] on which [Number::toString] works.  The
    embedding is exact for numbers of at most 15 significant digits,
    where a decimal and the double nearest to it determine each
    other. *)
Record number : Type := mkNumber { mant : Z; scale : nat }.

Definition number_is_zero (x : number) : bool := (mant x =? 0).

Definition digits_of_pos (p : positive) : string :=
  NilEmpty.string_of_uint (Pos.to_uint p).

Definition digits_of_Z (z : Z) : string :=
  match z with
  | Z0 => "0"
  | Zpos p => digits_of_pos p
  | Zneg p => "-" ++ digits_of_pos p
  end.

(** The integer nearest to [n / d], for [d > 0]; a tie goes to the even
    one. *)
Definition round_half_even (n d : Z) : Z :=
  let q := n / d in
  let r := n mod d in
  if 2 * r <? d then q
  else if d <? 2 * r then q + 1
  else if Z.even q then q else q + 1.

(** The double nearest to the rational [n / d], for [n > 0] and
    [d > 0], as [(m, e)] with value [m * 2^e] and
    [2^52 <= m < 2^53] (round to nearest, ties to even; the range of
    the exponent is not modelled). *)
Definition nearest_double (n d : Z) : Z * Z :=
  let scaled (e : Z) : Z * Z :=
    if 0 <=? e then (n, d * 2 ^ e) else (n * 2 ^ (- e), d) in
  let e0 := Z.log2 n - Z.log2 d - 52 in
  let e := if fst (scaled e0) / snd (scaled e0) <? 2 ^ 52 then e0 - 1 else e0 in
  let m := round_half_even (fst (scaled e)) (snd (scaled e)) in
  if m =? 2 ^ 53 then (2 ^ 52, e + 1) else (m, e).

(** The JavaScript number of a whole number: itself below [2^53], and
    the nearest double from there on.  A JavaScript number holds no
    whole number of magnitude [2^1024] or more; these are outside the
    model, and [is_double] below leaves them out. *)
Definition double_of_pos (p : positive) : Z :=
  if Zpos p <? 2 ^ 53 then Zpos p
  else let '(m, e) := nearest_double (Zpos p) 1 in m * 2 ^ e.

Definition double_of_Z (z : Z) : Z :=
  match z with
  | Z0 => 0
  | Zpos p => double_of_pos p
  | Zneg p => - double_of_pos p
  end.

(** The shortest whole decimal that reads back as the double [v > 0]:
    the multiples of [10^j] next to [v] are tried from the coarsest
    step on, and of two that read back as [v] the closer one is taken. *)
Fixpoint shortest_whole (j : nat) (v : Z) : Z :=
  match j with
  | O => v
  | S j' =>
      let step := 10 ^ Z.of_nat j in
      let lo := v / step * step in
      let hi := lo + step in
      let ok_lo := double_of_Z lo =? v in
      let ok_hi := double_of_Z hi =? v in
      if ok_lo && ok_hi then
        if (v - lo <? hi - v) || ((v - lo =? hi - v) && Z.even (v / step))
        then lo else hi
      else if ok_lo then lo
      else if ok_hi then hi
      else shortest_whole j' v
  end.

Definition shortest_pos (p : positive) : positive :=
  let v := double_of_pos p in
  Z.to_pos (shortest_whole (String.length (digits_of_Z v) - 1) v).

(** A whole number as JavaScript holds and prints it: the shortest
    decimal of its double.  A whole number that is no double stands
    for the double nearest to it, as its numeral does in JavaScript. *)
Definition number_of_Z (z : Z) : number :=
  match z with
  | Z0 => mkNumber 0 0
  | Zpos p => mkNumber (Zpos (shortest_pos p)) 0
  | Zneg p => mkNumber (Zneg (shortest_pos p)) 0
  end.

(** The shortest decimal [s * 10^t] that reads back as the double
    [m * 2^e], looked for from [t] downwards. *)
Fixpoint shortest_decimal (fuel : nat) (t : Z) (m e : Z) : Z * Z :=
  match fuel with
  | O => (0, 0)
  | S fuel' =>
      let xn := if 0 <=? e then m * 2 ^ e else m in
      let xd := if 0 <=? e then 1 else 2 ^ (- e) in
      let tn := if 0 <=? t then 10 ^ t else 1 in
      let td := if 0 <=? t then 1 else 10 ^ (- t) in
      let s := (xn * td) / (xd * tn) in
      let ok (s : Z) : bool :=
        (0 <? s)
        && (let '(m', e') := nearest_double (s * tn) td in
            (m' =? m) && (e' =? e)) in
      let lo_closer : bool :=
        let twice_x := 2 * xn * td in
        let middle := (2 * s + 1) * tn * xd in
        (twice_x <? middle) || ((twice_x =? middle) && Z.even s) in
      if ok s && ok (s + 1) then (if lo_closer then (s, t) else (s + 1, t))
      else if ok s then (s, t)
      else if ok (s + 1) then (s + 1, t)
      else shortest_decimal fuel' (t - 1) m e
  end.

Definition number_of_decimal (st : Z * Z) : number :=
  let '(s, t) := st in
  if 0 <=? t then mkNumber (s * 10 ^ t) 0 else mkNumber s (Z.to_nat (- t)).

(** [w / 100] for a whole number [w]: the double nearest to the
    quotient, in its shortest decimal. *)
Definition div100 (w : Z) : number :=
  let v := double_of_Z w in
  if v mod 100 =? 0 then number_of_Z (v / 100)
  else
    let '(m, e) := nearest_double (Z.abs v) 100 in
    let len := String.length (digits_of_Z (Z.abs v)) in
    let x := number_of_decimal (shortest_decimal (len + 25) (Z.of_nat len) m e) in
    mkNumber (Z.sgn v * mant x) (scale x).

Fixpoint strip_trailing_zeros (s : string) : string :=
  match s with
  | EmptyString => ""
  | String c rest =>
      let rest' := strip_trailing_zeros rest in
      if (rest' =? "")%string && (c =? "0")%char then "" else String c rest'
  end.

(** [Number::toString] (radix 10) on a positive number
    [p * 10^(-sc)].  With [s] the digits without trailing zeros, [k]
    their count and [n] the position of the decimal point, the number
    is [s * 10^(n-k)]; the four layouts are those of ECMAScript. *)
Definition Number_toString_pos (p : positive) (sc : nat) : string :=
  let all := digits_of_pos p in
  let s := strip_trailing_zeros all in
  let k := Z.of_nat (String.length s) in
  let n := Z.of_nat (String.length all) - Z.of_nat sc in
  if (k <=? n) && (n <=? 21) then
    s ++ repeat_string "0" (Z.to_nat (n - k))
  else if (0 <? n) && (n <=? 21) then
    substring 0 (Z.to_nat n) s ++ "."
      ++ substring (Z.to_nat n) (String.length s - Z.to_nat n) s
  else if (-6 <? n) && (n <=? 0) then
    "0." ++ repeat_string "0" (Z.to_nat (- n)) ++ s
  else
    let e := n - 1 in
    let exponent := (if e <? 0 then "-" else "+") ++ digits_of_Z (Z.abs e) in
    match s with
    | EmptyString => ""
    | String c EmptyString => String c "" ++ "e" ++ exponent
    | String c rest => String c "" ++ "." ++ rest ++ "e" ++ exponent
    end.

Definition Number_toString (x : number) : string :=
  match mant x with
  | Z0 => "0"
  | Zpos p => Number_toString_pos p (scale x)
  | Zneg p => "-" ++ Number_toString_pos p (scale x)
  end.

(** Values as the program handles them: what [JSON.parse] returns, and
    [undefined] for a property that is not there. *)
#[warnings="-register-all"] Inductive jsval : Type :=
| JUndefined
| JNull
| JBool (b : bool)
| JNum (n : number)
| JStr (s : string)
| JArr (items : list jsval)
| JObj (fields : list (string * jsval)).

(** [v === 'lit']: strict equality with a string literal holds for a
    string primitive of the same content and for nothing else; an
    object is never strictly equal to a string. *)
Definition strict_eq_string (v : jsval) (lit : string) : bool :=
  match v with
  | JStr s => (s =? lit)%string
  | _ => false
  end.

(** ToBoolean. *)
Definition truthy (v : jsval) : bool :=
  match v with
  | JUndefined | JNull => false
  | JBool b => b
  | JNum n => negb (number_is_zero n)
  | JStr s => negb (s =? "")%string
  | JArr _ | JObj _ => true
  end.

(* ================================================================== *)
(** ** JSON.stringify on the dataset's sequences *)
(* ================================================================== *)

Definition hex_digit (n : nat) : string :=
  String (nth n (list_ascii_of_string "0123456789abcdef") "0"%char) "".

(** QuoteJSONString, one character at a time. *)
Definition json_escape_char (c : ascii) : string :=
  let code := nat_of_ascii c in
  if (code =? 34)%nat then "\" ++ dq
  else if (code =? 92)%nat then "\\"
  else if (code =? 8)%nat then "\b"
  else if (code =? 12)%nat then "\f"
  else if (code =? 10)%nat then "\n"
  else if (code =? 13)%nat then "\r"
  else if (code =? 9)%nat then "\t"
  else if (code <? 32)%nat then
    "\u00" ++ hex_digit (code / 16) ++ hex_digit (code mod 16)
  else String c "".

Fixpoint json_escape (s : string) : string :=
  match s with
  | EmptyString => ""
  | String c rest => json_escape_char c ++ json_escape rest
  end.

Definition JSON_stringify_string (s : string) : string :=
  dq ++ json_escape s ++ dq.

Definition JSON_stringify_array {A : Type} (item : A -> string) (l : list A) : string :=
  "[" ++ String.concat "," (map item l) ++ "]".

Definition JSON_stringify_strings : list string -> string :=
  JSON_stringify_array JSON_stringify_string.

Definition JSON_stringify_numbers : list number -> string :=
  JSON_stringify_array Number_toString.

(* ================================================================== *)
(** ** Data model *)
(* ================================================================== *)

Module ChartDescriptor.
Record t : Type := mk {
  id : string;
  name : string;
  library : string;
  description : string;
  icon : string;
  category : string
}.
End ChartDescriptor.

Module Dataset.
Record t : Type := mk {
  name : string;
  rows : list string;
  cols : list number;
  values : option (list number);
  description : option string
}.
End Dataset.

Module ColorScheme.
Record t : Type := mk {
  name : string;
  value : string;
  colors : list string
}.
End ColorScheme.

Module Size.
(** [width] and [height] are whole numbers of pixels, in every preset
    and at every step of the sliders. *)
Record t : Type := mk {
  name : string;
  value : string;
  width : Z;
  height : Z
}.
End Size.

Module Customization.
(** The state that ChartBuilder keeps and hands to the generator.
    [theme] is kept as a JavaScript value: ChartBuilder stores an entry
    of the theme catalog in it, and the generator compares it with a
    string. *)
Record t : Type := mk {
  colors : ColorScheme.t;
  theme : jsval;
  size : Size.t;
  customWidth : Z;
  customHeight : Z
}.
End Customization.

(* ================================================================== *)
(** ** Static catalogs (mock.js) *)
(* ================================================================== *)

Definition mockChartTypes : list ChartDescriptor.t := [
  ChartDescriptor.mk "matplotlib_line" "Line Chart" "matplotlib"
    "Perfect for showing trends over time" "📈" "basic";
  ChartDescriptor.mk "matplotlib_bar" "Bar Chart" "matplotlib"
    "Great for comparing categories" "📊" "basic";
  ChartDescriptor.mk "matplotlib_scatter" "Scatter Plot" "matplotlib"
    "Shows relationships between variables" "⚪" "basic";
  ChartDescriptor.mk "seaborn_heatmap" "Heatmap" "seaborn"
    "Visualize data through colors" "🔥" "statistical";
  ChartDescriptor.mk "seaborn_violin" "Violin Plot" "seaborn"
    "Show distribution shapes" "🎻" "statistical";
  ChartDescriptor.mk "plotly_interactive" "Interactive Chart" "plotly"
    "Hover, zoom, and pan capabilities" "🖱️" "interactive"
].

Definition mock_colors : list ColorScheme.t := [
  ColorScheme.mk "Default" "default" ["#1f77b4"; "#ff7f0e"; "#2ca02c"];
  ColorScheme.mk "Viridis" "viridis" ["#440154"; "#31688e"; "#35b779"];
  ColorScheme.mk "Plasma" "plasma" ["#0d0887"; "#cc4778"; "#f0f921"];
  ColorScheme.mk "Ocean" "ocean" ["#003f5c"; "#58508d"; "#bc5090"];
  ColorScheme.mk "Sunset" "sunset" ["#ff6b35"; "#f7931e"; "#ffd23f"]
].

Definition mk_theme (name value description : string) : jsval :=
  JObj [("name", JStr name); ("value", JStr value);
        ("description", JStr description)].

Definition mock_themes : list jsval := [
  mk_theme "Clean" "clean" "Minimal and professional";
  mk_theme "Dark" "dark" "Dark theme for modern look";
  mk_theme "Scientific" "scientific" "Academic publication style";
  mk_theme "Presentation" "presentation" "Bold for presentations"
].

Definition mock_sizes : list Size.t := [
  Size.mk "Small" "small" 800 600;
  Size.mk "Medium" "medium" 1200 800;
  Size.mk "Large" "large" 1600 1000;
  Size.mk "Custom" "custom" 1200 800
].

Definition theme_clean : jsval := nth 0 mock_themes JUndefined.
Definition theme_dark : jsval := nth 1 mock_themes JUndefined.
Definition size_medium : Size.t := nth 1 mock_sizes (Size.mk "" "" 0 0).
Definition size_custom : Size.t := nth 3 mock_sizes (Size.mk "" "" 0 0).
Definition colors_default : ColorScheme.t :=
  nth 0 mock_colors (ColorScheme.mk "" "" []).

(* ================================================================== *)
(** ** The code generator (mock.js, generateMockPythonCode) *)
(* ================================================================== *)

(** An array element inside a template literal: the element, or the text
    [undefined] when the index is past the end. *)
Definition element_text (l : list string) (i : nat) : string :=
  match nth_error l i with
  | Some s => s
  | None => "undefined"
  end.

(** [values && values.length > 0] *)
Definition has_values (values : option (list number)) : bool :=
  match values with
  | Some l => (0 <? List.length l)%nat
  | None => false
  end.

Definition generateMockPythonCode
    (chartType : ChartDescriptor.t) (dataset : Dataset.t)
    (customization : Customization.t) : string :=
  let id := ChartDescriptor.id chartType in
  let rows := Dataset.rows dataset in
  let cols := Dataset.cols dataset in
  let values := Dataset.values dataset in
  let colors := Customization.colors customization in
  let theme := Customization.theme customization in
  let size := Customization.size customization in
  let code := lines [
    "import matplotlib.pyplot as plt";
    "import seaborn as sns";
    "import plotly.express as px";
    "import pandas as pd";
    "import numpy as np";
    "";
    "# Data setup";
    "rows = " ++ JSON_stringify_strings rows;
    "cols = " ++ JSON_stringify_numbers cols ] in
  let code :=
    if has_values values then
      code ++ lines [
        "";
        "values = " ++ JSON_stringify_numbers
                         (match values with Some l => l | None => [] end) ]
    else code in
  let code := code ++ lines [
    "";
    "";
    "# Create DataFrame for easier manipulation";
    "df = pd.DataFrame({";
    "    'categories': rows,";
    "    'values': cols"
      ++ (if has_values values then "," ++ nl ++ "    'weights': values" else "");
    "})";
    "";
    "# Set up the plot style";
    "plt.style.use('"
      ++ (if strict_eq_string theme "dark" then "dark_background" else "default")
      ++ "')";
    "figure_size = (" ++ Number_toString (div100 (Size.width size)) ++ ", "
      ++ Number_toString (div100 (Size.height size)) ++ ")";
    "";
    "" ] in
  if (id =? "matplotlib_line")%string then
    code ++ lines [
      "# Create line chart";
      "plt.figure(figsize=figure_size)";
      "plt.plot(rows, cols, marker='o', linewidth=2.5, markersize=8)";
      "plt.title('" ++ Dataset.name dataset
        ++ "', fontsize=16, fontweight='bold', pad=20)";
      "plt.xlabel('Categories', fontsize=12)";
      "plt.ylabel('Values', fontsize=12)";
      "plt.grid(True, alpha=0.3)";
      "plt.tight_layout()";
      "plt.savefig('visualization.png', dpi=300, bbox_inches='tight')";
      "plt.show()" ]
  else if (id =? "matplotlib_bar")%string then
    code ++ lines [
      "# Create bar chart";
      "plt.figure(figsize=figure_size)";
      "bars = plt.bar(rows, cols, color='"
        ++ element_text (ColorScheme.colors colors) 0
        ++ "', alpha=0.8, edgecolor='black', linewidth=0.8)";
      "plt.title('" ++ Dataset.name dataset
        ++ "', fontsize=16, fontweight='bold', pad=20)";
      "plt.xlabel('Categories', fontsize=12)";
      "plt.ylabel('Values', fontsize=12)";
      "plt.xticks(rotation=45 if len(rows) > 4 else 0)";
      "";
      "# Add value labels on bars";
      "for bar, value in zip(bars, cols):";
      "    plt.text(bar.get_x() + bar.get_width()/2, bar.get_height() + max(cols)*0.01,";
      "             f'{value:,}', ha='center', va='bottom', fontweight='bold')";
      "";
      "plt.tight_layout()";
      "plt.savefig('visualization.png', dpi=300, bbox_inches='tight')";
      "plt.show()" ]
  else if (id =? "seaborn_heatmap")%string then
    code ++ lines [
      "# Create heatmap";
      "plt.figure(figsize=figure_size)";
      "# Reshape data for heatmap if needed";
      "heatmap_data = np.array(cols).reshape(-1, 1) if len(np.array(cols).shape) == 1 else cols";
      "sns.heatmap(heatmap_data, annot=True, cmap='"
        ++ ColorScheme.value colors ++ "', ";
      "           xticklabels=rows[:len(heatmap_data[0])] if len(heatmap_data.shape) > 1 else ['Values'],";
      "           yticklabels=rows, square=True, linewidths=0.5)";
      "plt.title('" ++ Dataset.name dataset
        ++ "', fontsize=16, fontweight='bold', pad=20)";
      "plt.tight_layout()";
      "plt.savefig('visualization.png', dpi=300, bbox_inches='tight')";
      "plt.show()" ]
  else if (id =? "plotly_interactive")%string then
    code ++ lines [
      "# Create interactive chart with Plotly";
      "import plotly.graph_objects as go";
      "";
      "fig = go.Figure()";
      "fig.add_trace(go.Scatter(";
      "    x=rows,";
      "    y=cols,";
      "    mode='lines+markers',";
      "    name='" ++ Dataset.name dataset ++ "',";
      "    line=dict(width=3, color='"
        ++ element_text (ColorScheme.colors colors) 0 ++ "'),";
      "    marker=dict(size=10, color='"
        ++ element_text (ColorScheme.colors colors) 1 ++ "')";
      "))";
      "";
      "fig.update_layout(";
      "    title={";
      "        'text': '" ++ Dataset.name dataset ++ "',";
      "        'x': 0.5,";
      "        'xanchor': 'center',";
      "        'font': {'size': 18, 'family': 'Arial, sans-serif'}";
      "    },";
      "    xaxis_title='Categories',";
      "    yaxis_title='Values',";
      "    width=" ++ Number_toString (number_of_Z (Size.width size)) ++ ",";
      "    height=" ++ Number_toString (number_of_Z (Size.height size)) ++ ",";
      "    hovermode='closest',";
      "    template='"
        ++ (if strict_eq_string theme "dark" then "plotly_dark" else "plotly_white")
        ++ "'";
      ")";
      "";
      "fig.show()";
      "# To save: fig.write_html(" ++ dq ++ "visualization.html" ++ dq ++ ")" ]
  else
    code ++ lines [
      "# Basic visualization";
      "plt.figure(figsize=figure_size)";
      "plt.plot(rows, cols)";
      "plt.title('" ++ Dataset.name dataset ++ "')";
      "plt.savefig('visualization.png')";
      "plt.show()" ].

(* ================================================================== *)
(** ** Property access, spread and trim on JavaScript values *)
(* ================================================================== *)

(** A thrown error, kept as its [message]; [inl] is a throw. *)
Definition exn : Type := string.
Abbreviation js := (sum exn).

(** [try { body } catch (error) { handler(error.message) }] *)
Definition try_catch {A : Type} (body : js A) (handler : string -> A) : A :=
  match body with
  | inr a => a
  | inl message => handler message
  end.

Fixpoint assoc (k : string) (fields : list (string * jsval)) : option jsval :=
  match fields with
  | [] => None
  | (k', v) :: rest => if (k' =? k)%string then Some v else assoc k rest
  end.

(** The own property [k] of a value, when it has one.  Arrays and
    strings also have index properties; they are not needed for the
    names read below. *)
Definition own_field (v : jsval) (k : string) : option jsval :=
  match v with
  | JObj fields => assoc k fields
  | JArr items =>
      if (k =? "length")%string
      then Some (JNum (number_of_Z (Z.of_nat (List.length items))))
      else None
  | _ => None
  end.

(** [v.k]: a TypeError on [undefined] and [null], [undefined] for a
    property that is not there.  The message is the engine's. *)
Definition get_prop (v : jsval) (k : string) : js jsval :=
  match v with
  | JUndefined =>
      raise ("Cannot read properties of undefined (reading '" ++ k ++ "')")
  | JNull =>
      raise ("Cannot read properties of null (reading '" ++ k ++ "')")
  | _ => ret (match own_field v k with Some x => x | None => JUndefined end)
  end.

Definition Array_isArray (v : jsval) : bool :=
  match v with
  | JArr _ => true
  | _ => false
  end.

(** [v === 0] *)
Definition strict_eq_zero (v : jsval) : bool :=
  match v with
  | JNum n => number_is_zero n
  | _ => false
  end.

(** [a || b] *)
Definition js_or (a b : jsval) : jsval := if truthy a then a else b.

Fixpoint indexed (i : nat) (items : list jsval) : list (string * jsval) :=
  match items with
  | [] => []
  | x :: rest => (digits_of_Z (Z.of_nat i), x) :: indexed (S i) rest
  end.

(** The properties that [{...v}] copies: those of an object, the
    elements of an array, none of a primitive. *)
Definition spread (v : jsval) : list (string * jsval) :=
  match v with
  | JObj fields => fields
  | JArr items => indexed 0 items
  | _ => []
  end.

(** [{...fields, k: v}]: an existing key keeps its place. *)
Fixpoint set_field (fields : list (string * jsval)) (k : string) (v : jsval)
    : list (string * jsval) :=
  match fields with
  | [] => [(k, v)]
  | (k', v') :: rest =>
      if (k' =? k)%string then (k, v) :: rest
      else (k', v') :: set_field rest k v
  end.

(** White space and line terminators of ECMAScript, in UTF-8. *)
Definition ws1 (a : nat) : bool :=
  ((9 <=? a) && (a <=? 13) || (a =? 32))%nat.

Definition ws2 (a b : nat) : bool :=
  ((a =? 194) && (b =? 160))%nat.

Definition ws3 (a b c : nat) : bool :=
  ((a =? 225) && (b =? 154) && (c =? 128)
   || (a =? 226) && (b =? 128)
      && ((128 <=? c) && (c <=? 138) || (c =? 168) || (c =? 169) || (c =? 175))
   || (a =? 226) && (b =? 129) && (c =? 159)
   || (a =? 227) && (b =? 128) && (c =? 128)
   || (a =? 239) && (b =? 187) && (c =? 191))%nat.

(** [s.trim()] is the empty string: [s] is white space throughout. *)
Fixpoint trim_is_empty (s : string) : bool :=
  match s with
  | EmptyString => true
  | String a r1 =>
      if ws1 (nat_of_ascii a) then trim_is_empty r1
      else
        match r1 with
        | EmptyString => false
        | String b r2 =>
            if ws2 (nat_of_ascii a) (nat_of_ascii b) then trim_is_empty r2
            else
              match r2 with
              | EmptyString => false
              | String c r3 =>
                  if ws3 (nat_of_ascii a) (nat_of_ascii b) (nat_of_ascii c)
                  then trim_is_empty r3
                  else false
              end
        end
  end.

(* ================================================================== *)
(** ** The dataset validator (DataInput.jsx) *)
(* ================================================================== *)

Record ValidationResult : Type := mkResult {
  isValid : bool;
  data : option jsval;      (* [None] is [null] *)
  error : option string     (* [None] is [null] *)
}.

Record DataInputState : Type := mkState {
  jsonInput : string;
  selectedExample : string;
  isValidJson : bool
}.

Definition msg_missing : string :=
  "JSON must contain " ++ dq ++ "rows" ++ dq ++ " and " ++ dq ++ "cols" ++ dq
    ++ " arrays".
Definition msg_not_arrays : string :=
  dq ++ "rows" ++ dq ++ " and " ++ dq ++ "cols" ++ dq ++ " must be arrays".
Definition msg_empty : string := "Arrays cannot be empty".

(** [{ ...data, name: data.name || 'Custom Dataset' }] *)
Definition normalizeDataset (data : jsval) : js jsval :=
  name <- get_prop data "name" ;;
  ret (JObj (set_field (spread data) "name"
               (js_or name (JStr "Custom Dataset")))).

Section Validator.

(** [JSON.parse] belongs to the host: the parsed value, or the
    message of the SyntaxError it throws. *)
Variable JSON_parse : string -> js jsval.

(** The body of the [try] block. *)
Definition validateAndParseJson_try (jsonString : string) : js ValidationResult :=
  parsed <- JSON_parse jsonString ;;
  (* Validate required fields *)
  rows <- get_prop parsed "rows" ;;
  absent <- (if negb (truthy rows) then ret true
             else cols <- get_prop parsed "cols" ;; ret (negb (truthy cols))) ;;
  (if absent then raise msg_missing else ret tt) ;;
  rows <- get_prop parsed "rows" ;;
  not_arrays <- (if negb (Array_isArray rows) then ret true
                 else cols <- get_prop parsed "cols" ;;
                      ret (negb (Array_isArray cols))) ;;
  (if not_arrays then raise msg_not_arrays else ret tt) ;;
  rows <- get_prop parsed "rows" ;;
  rows_length <- get_prop rows "length" ;;
  empty <- (if strict_eq_zero rows_length then ret true
            else cols <- get_prop parsed "cols" ;;
                 cols_length <- get_prop cols "length" ;;
                 ret (strict_eq_zero cols_length)) ;;
  (if empty then raise msg_empty else ret tt) ;;
  ret (mkResult true (Some parsed) None).

Definition validateAndParseJson (jsonString : string) : ValidationResult :=
  try_catch (validateAndParseJson_try jsonString)
            (fun message => mkResult false None (Some message)).

(** [handleJsonChange]: the new component state and the argument of
    the [onDataChange] call, when there is one. *)
Definition handleJsonChange (value : string) (st : DataInputState)
    : js (DataInputState * option jsval) :=
  let st := mkState value (selectedExample st) (isValidJson st) in
  if negb (trim_is_empty value) then
    let result := validateAndParseJson value in
    let st := mkState (jsonInput st) (selectedExample st) (isValid result) in
    if isValid result then
      dataset <- normalizeDataset
                   (match data result with Some d => d | None => JNull end) ;;
      ret (st, Some dataset)
    else ret (st, None)
  else ret (st, None).

End Validator.

(* ================================================================== *)
(** ** The customization state (ChartBuilder) *)
(* ================================================================== *)

(** The initial value of the [customization] state. *)
Definition initialCustomization : Customization.t :=
  Customization.mk colors_default theme_clean size_medium 1200 800.

(** A key of the customization state together with its new value. *)
Inductive CustomizationEntry : Type :=
| Set_colors (value : ColorScheme.t)
| Set_theme (value : jsval)
| Set_size (value : Size.t)
| Set_customWidth (value : Z)
| Set_customHeight (value : Z).

(** [updateCustomization(key, value)]: [{ ...prev, [key]: value }] *)
Definition updateCustomization (entry : CustomizationEntry)
    (prev : Customization.t) : Customization.t :=
  let '(Customization.mk colors theme size customWidth customHeight) := prev in
  match entry with
  | Set_colors value => Customization.mk value theme size customWidth customHeight
  | Set_theme value => Customization.mk colors value size customWidth customHeight
  | Set_size value => Customization.mk colors theme value customWidth customHeight
  | Set_customWidth value => Customization.mk colors theme size value customHeight
  | Set_customHeight value => Customization.mk colors theme size customWidth value
  end.

(** The theme selector: [themes.find(t => t.value === value)], stored
    under the key [theme]. *)
Definition onThemeChange (value : string) (prev : Customization.t)
    : Customization.t :=
  let theme :=
    find (fun t => match own_field t "value" with
                   | Some v => strict_eq_string v value
                   | None => false
                   end) mock_themes in
  updateCustomization
    (Set_theme (match theme with Some t => t | None => JUndefined end)) prev.

(** The two sliders shown for the custom size. *)
Definition onCustomWidthChange (value : Z) : Customization.t -> Customization.t :=
  updateCustomization (Set_customWidth value).
Definition onCustomHeightChange (value : Z) : Customization.t -> Customization.t :=
  updateCustomization (Set_customHeight value).

(* ================================================================== *)
(** ** The parts of a generated script *)
(* ================================================================== *)

(** The chart ids that the [switch] of the generator has a case for. *)
Definition recognized_ids : list string :=
  ["matplotlib_line"; "matplotlib_bar"; "seaborn_heatmap"; "plotly_interactive"].

(** What the generator has accumulated in [code] when it reaches the
    [switch]: imports, data setup, data frame, style and figure size. *)
Definition common_preamble (dataset : Dataset.t) (customization : Customization.t)
    : string :=
  let rows := Dataset.rows dataset in
  let cols := Dataset.cols dataset in
  let values := Dataset.values dataset in
  let theme := Customization.theme customization in
  let size := Customization.size customization in
  lines [
    "import matplotlib.pyplot as plt";
    "import seaborn as sns";
    "import plotly.express as px";
    "import pandas as pd";
    "import numpy as np";
    "";
    "# Data setup";
    "rows = " ++ JSON_stringify_strings rows;
    "cols = " ++ JSON_stringify_numbers cols ]
  ++ (if has_values values then
        lines [
          "";
          "values = " ++ JSON_stringify_numbers
                           (match values with Some l => l | None => [] end) ]
      else "")
  ++ lines [
    "";
    "";
    "# Create DataFrame for easier manipulation";
    "df = pd.DataFrame({";
    "    'categories': rows,";
    "    'values': cols"
      ++ (if has_values values then "," ++ nl ++ "    'weights': values" else "");
    "})";
    "";
    "# Set up the plot style";
    "plt.style.use('"
      ++ (if strict_eq_string theme "dark" then "dark_background" else "default")
      ++ "')";
    "figure_size = (" ++ Number_toString (div100 (Size.width size)) ++ ", "
      ++ Number_toString (div100 (Size.height size)) ++ ")";
    "";
    "" ].

(** The text appended by the [default] case of the [switch]. *)
Definition default_body (dataset : Dataset.t) : string :=
  lines [
    "# Basic visualization";
    "plt.figure(figsize=figure_size)";
    "plt.plot(rows, cols)";
    "plt.title('" ++ Dataset.name dataset ++ "')";
    "plt.savefig('visualization.png')";
    "plt.show()" ].

(** The tick line of the bar chart, as it stands in the template. *)
Definition xticks_line : string :=
  "plt.xticks(rotation=45 if len(rows) > 4 else 0)".

(** The size lines of the layout block of the interactive chart. *)
Definition layout_size_lines (width height : Z) : string :=
  lines [
    "    width=" ++ Number_toString (number_of_Z width) ++ ",";
    "    height=" ++ Number_toString (number_of_Z height) ++ ",";
    "" ].

(* ================================================================== *)
(** ** Sample inputs *)
(* ================================================================== *)

Definition no_chart : ChartDescriptor.t := ChartDescriptor.mk "" "" "" "" "" "".

Definition chart_line : ChartDescriptor.t := nth 0 mockChartTypes no_chart.
Definition chart_bar : ChartDescriptor.t := nth 1 mockChartTypes no_chart.
Definition chart_scatter : ChartDescriptor.t := nth 2 mockChartTypes no_chart.
Definition chart_violin : ChartDescriptor.t := nth 4 mockChartTypes no_chart.
Definition chart_plotly : ChartDescriptor.t := nth 5 mockChartTypes no_chart.
Definition chart_nonexistent : ChartDescriptor.t :=
  ChartDescriptor.mk "nonexistent_chart" "" "" "" "" "".

(** [{name:"T", rows:["A","B"], cols:[1,2]}] *)
Definition dataset_T : Dataset.t :=
  Dataset.mk "T" ["A"; "B"] [number_of_Z 1; number_of_Z 2] None None.

Definition dataset_3 : Dataset.t :=
  Dataset.mk "Three" ["A"; "B"; "C"]
    [number_of_Z 1; number_of_Z 2; number_of_Z 3] None None.

Definition dataset_5 : Dataset.t :=
  Dataset.mk "Five" ["A"; "B"; "C"; "D"; "E"]
    [number_of_Z 1; number_of_Z 2; number_of_Z 3; number_of_Z 4; number_of_Z 5]
    None None.

(** Clean theme, medium size: the initial state of ChartBuilder. *)
Definition customization_clean_medium : Customization.t := initialCustomization.

Definition customization_custom : Customization.t :=
  updateCustomization (Set_size size_custom) initialCustomization.

(** A stand-in for the host's [JSON.parse] that knows one text. *)
Definition parse_only (text : string) (v : jsval) (s : string) : js jsval :=
  if (s =? text)%string then inr v else inl "Unexpected end of JSON input".

Definition q (s : string) : string := dq ++ s ++ dq.

(** [{"rows":["A"],"cols":[1,2]}]: one label, two values. *)
Definition text_uneven : string :=
  "{" ++ q "rows" ++ ":[" ++ q "A" ++ "]," ++ q "cols" ++ ":[1,2]}".
Definition parsed_uneven : jsval :=
  JObj [("rows", JArr [JStr "A"]);
        ("cols", JArr [JNum (number_of_Z 1); JNum (number_of_Z 2)])].

(** [{"name":"","rows":["A"],"cols":[1]}]: a name that is there and empty. *)
Definition text_empty_name : string :=
  "{" ++ q "name" ++ ":" ++ q "" ++ "," ++ q "rows" ++ ":[" ++ q "A" ++ "],"
    ++ q "cols" ++ ":[1]}".
Definition parsed_empty_name : jsval :=
  JObj [("name", JStr ""); ("rows", JArr [JStr "A"]);
        ("cols", JArr [JNum (number_of_Z 1)])].

(** [{"name":"Sales","rows":["A"],"cols":[1],"values":[0.5]}] *)
Definition text_named : string :=
  "{" ++ q "name" ++ ":" ++ q "Sales" ++ "," ++ q "rows" ++ ":[" ++ q "A" ++ "],"
    ++ q "cols" ++ ":[1]," ++ q "values" ++ ":[0.5]}".
Definition parsed_named : jsval :=
  JObj [("name", JStr "Sales"); ("rows", JArr [JStr "A"]);
        ("cols", JArr [JNum (number_of_Z 1)]);
        ("values", JArr [JNum (mkNumber 5 1)])].

(** [{"rows":[],"cols":[1]}] *)
Definition text_empty_rows : string :=
  "{" ++ q "rows" ++ ":[]," ++ q "cols" ++ ":[1]}".
Definition parsed_empty_rows : jsval :=
  JObj [("rows", JArr []); ("cols", JArr [JNum (number_of_Z 1)])].

Definition state0 : DataInputState := mkState "" "" true.

(** The number of digits of a whole number. *)
Definition numeral_length (w : Z) : nat :=
  String.length (digits_of_Z (Z.abs w)).

(** The value of a whole-number literal of the generated script. *)
Definition literal_value (s : string) : option Z :=
  option_map Z.of_int (NilZero.int_of_string s).

(** A whole number that a JavaScript number holds exactly: a finite
    double. *)
Definition is_double (w : Z) : bool :=
  (double_of_Z w =? w) && (Z.abs w <? 2 ^ 1024).

(** A decimal digit. *)
Definition is_digit (c : ascii) : bool :=
  (48 <=? nat_of_ascii c)%nat && (nat_of_ascii c <=? 57)%nat.

(** The leading digits of a text, and what follows them. *)
Fixpoint span_digits (s : string) : string * string :=
  match s with
  | EmptyString => ("", "")
  | String c rest =>
      if is_digit c
      then let '(d, t) := span_digits rest in (String c d, t)
      else ("", s)
  end.

(** The value of a text of digits read after the number [acc]. *)
Fixpoint digits_value (s : string) (acc : Z) : Z :=
  match s with
  | EmptyString => acc
  | String c rest => digits_value rest (10 * acc + Z.of_nat (nat_of_ascii c - 48))
  end.

(** The whole number that an unsigned number literal of the script
    denotes, for the forms [ddd] and [d.ddde+NN] in which JavaScript
    prints a whole number: the value of the digits times the power of
    ten that the exponent leaves after the digits of the fraction;
    [None] when the text has another form or has more fraction digits
    than its exponent. *)
Definition unsigned_literal_number (s : string) : option Z :=
  let '(ip, r1) := span_digits s in
  let '(fp, r2) :=
    match r1 with
    | String c rest => if (c =? ".")%char then span_digits rest else ("", r1)
    | EmptyString => ("", r1)
    end in
  let exponent : option Z :=
    match r2 with
    | EmptyString => Some 0
    | String c (String c' rest) =>
        let '(e, r3) := span_digits rest in
        if (c =? "e")%char && (c' =? "+")%char
           && negb (e =? "")%string && (r3 =? "")%string
        then Some (digits_value e 0) else None
    | _ => None
    end in
  match exponent with
  | Some e =>
      if negb (ip =? "")%string && (Z.of_nat (String.length fp) <=? e)
      then Some (digits_value (ip ++ fp) 0 * 10 ^ (e - Z.of_nat (String.length fp)))
      else None
  | None => None
  end.

(** The same with a minus sign in front. *)
Definition literal_number (s : string) : option Z :=
  match s with
  | String c rest =>
      if (c =? "-")%char then option_map Z.opp (unsigned_literal_number rest)
      else unsigned_literal_number s
  | EmptyString => None
  end.

(** Whether a text is made of digits only. *)
Fixpoint all_digits (s : string) : bool :=
  match s with
  | EmptyString => true
  | String c rest => is_digit c && all_digits rest
  end.

(** The inputs that the specification says must be rejected: text that
    does not parse, and parsed values in which [rows] or [cols] is
    missing, is not an array, or is an empty array. *)
Inductive Rejected (JSON_parse : string -> js jsval) (s : string) : Prop :=
| Rejected_unparsable (message : string) :
    JSON_parse s = inl message -> Rejected JSON_parse s
| Rejected_missing (parsed : jsval) (k : string) :
    JSON_parse s = inr parsed -> In k ["rows"; "cols"] ->
    own_field parsed k = None -> Rejected JSON_parse s
| Rejected_not_array (parsed : jsval) (k : string) (v : jsval) :
    JSON_parse s = inr parsed -> In k ["rows"; "cols"] ->
    own_field parsed k = Some v -> Array_isArray v = false ->
    Rejected JSON_parse s
| Rejected_empty (parsed : jsval) (k : string) :
    JSON_parse s = inr parsed -> In k ["rows"; "cols"] ->
    own_field parsed k = Some (JArr []) -> Rejected JSON_parse s.

(** [Starts n h]: the text [h] begins with [n]. *)
Definition Starts (n h : string) : Prop := exists rest, h = n ++ rest.

(* ================================================================== *)
(** ** The rest of DataInput, ChartBuilder, App and PreviewPanel *)
(* ================================================================== *)

(** [v.k] for a value that is neither [null] nor [undefined]. *)
Definition read (v : jsval) (k : string) : jsval :=
  match own_field v k with
  | Some x => x
  | None => JUndefined
  end.

(** [clearData] (DataInput.jsx): the new component state and the
    argument of the [onDataChange] call, which is [null]. *)
Definition clearData (st : DataInputState) : DataInputState * option jsval :=
  (mkState "" "" true, Some JNull).

(** The key that an entry of the customization state is stored under. *)
Definition entry_key (entry : CustomizationEntry) : string :=
  match entry with
  | Set_colors _ => "colors"
  | Set_theme _ => "theme"
  | Set_size _ => "size"
  | Set_customWidth _ => "customWidth"
  | Set_customHeight _ => "customHeight"
  end.

(** [mockChartTypes.filter(chart => chart.category === category)] *)
Definition charts_in_category (category : string)
    (charts : list ChartDescriptor.t) : list ChartDescriptor.t :=
  filter (fun chart => (ChartDescriptor.category chart =? category)%string) charts.

(** [chartCategories] (ChartBuilder): the charts under each tab. *)
Definition chartCategories : list (string * list ChartDescriptor.t) :=
  [("basic", charts_in_category "basic" mockChartTypes);
   ("statistical", charts_in_category "statistical" mockChartTypes);
   ("interactive", charts_in_category "interactive" mockChartTypes)].

Module GeneratedVisualization.
(** The object that ChartBuilder hands to [onVisualizationChange]. *)
Record t : Type := mk {
  chartType : ChartDescriptor.t;
  dataset : Dataset.t;
  customization : Customization.t;
  pythonCode : string
}.
End GeneratedVisualization.

Module App.
(** The state of VisualizationPlatform (App.js); [None] is [null].  The
    dataset is an object or [null] at every call of [handleDataChange]
    in the program, so [!newData] is the test for [null]. *)
Record t : Type := mk {
  dataset : option Dataset.t;
  visualization : option GeneratedVisualization.t
}.

Definition initial : t := mk None None.

Definition handleDataChange (newData : option Dataset.t) (s : t) : t :=
  let s := mk newData (visualization s) in
  (* Reset visualization when data changes *)
  match newData with
  | None => mk (dataset s) None
  | Some _ => s
  end.

Definition handleVisualizationChange
    (newVisualization : GeneratedVisualization.t) (s : t) : t :=
  mk (dataset s) (Some newVisualization).
End App.

Module ChartBuilder.
(** The state of ChartBuilder; [None] is [null]. *)
Record t : Type := mk {
  selectedChart : option ChartDescriptor.t;
  customization : Customization.t
}.

Definition initial : t := mk None initialCustomization.

Definition handleChartSelect (chartType : ChartDescriptor.t) (s : t) : t :=
  mk (Some chartType) (customization s).

Definition setCustomization (entry : CustomizationEntry) (s : t) : t :=
  mk (selectedChart s) (updateCustomization entry (customization s)).

(** The effect on [selectedChart, dataset, customization]: the argument
    of the [onVisualizationChange] call, when there is one. *)
Definition effect (s : t) (dataset : option Dataset.t)
    : option GeneratedVisualization.t :=
  match selectedChart s, dataset with
  | Some chart, Some d =>
      let pythonCode := generateMockPythonCode chart d (customization s) in
      Some (GeneratedVisualization.mk chart d (customization s) pythonCode)
  | _, _ => None
  end.
End ChartBuilder.

(** The two components together.  An event runs its handler; React then
    renders and runs the effect of ChartBuilder on the new state. *)
Record Platform : Type := mkPlatform {
  app : App.t;
  builder : ChartBuilder.t
}.

Inductive Event : Type :=
| DataChange (newData : option Dataset.t)
| ChartSelect (chartType : ChartDescriptor.t)
| Customize (entry : CustomizationEntry).

Definition handle (e : Event) (p : Platform) : Platform :=
  match e with
  | DataChange newData =>
      mkPlatform (App.handleDataChange newData (app p)) (builder p)
  | ChartSelect chartType =>
      mkPlatform (app p) (ChartBuilder.handleChartSelect chartType (builder p))
  | Customize entry =>
      mkPlatform (app p) (ChartBuilder.setCustomization entry (builder p))
  end.

Definition run_effect (p : Platform) : Platform :=
  match ChartBuilder.effect (builder p) (App.dataset (app p)) with
  | Some v => mkPlatform (App.handleVisualizationChange v (app p)) (builder p)
  | None => p
  end.

Definition step (p : Platform) (e : Event) : Platform := run_effect (handle e p).

Definition run (events : list Event) : Platform :=
  fold_left step events (mkPlatform App.initial ChartBuilder.initial).

Module PreviewPanel.
Record Toast : Type := mkToast {
  title : string;
  description : jsval;
  variant : option string
}.

Record t : Type := mk {
  activeTab : string;
  isLoading : bool;
  previewImage : jsval
}.

Definition initial : t := mk "preview" false JNull.

(** What is posted to [/api/visualization/execute]. *)
Record Request : Type := mkRequest {
  url : string;
  code : string;
  dataset : Dataset.t
}.

(** [visualization?.pythonCode], when it is truthy. *)
Definition code_of (visualization : option GeneratedVisualization.t)
    : option GeneratedVisualization.t :=
  match visualization with
  | Some v =>
      if (GeneratedVisualization.pythonCode v =? "")%string then None else Some v
  | None => None
  end.

(** [copyCode]: the text written to the clipboard and the toast. *)
Definition copyCode (visualization : option GeneratedVisualization.t)
    : option (string * Toast) :=
  match code_of visualization with
  | Some v =>
      Some (GeneratedVisualization.pythonCode v,
            mkToast "Code copied" (JStr "Python code copied to clipboard") None)
  | None => None
  end.

(** [downloadCode]: the content of the file, its name and the toast. *)
Definition downloadCode (visualization : option GeneratedVisualization.t)
    : option (string * string * Toast) :=
  match code_of visualization with
  | Some v =>
      let name := Dataset.name (GeneratedVisualization.dataset v) in
      Some (GeneratedVisualization.pythonCode v,
            (if (name =? "")%string then "visualization" else name) ++ "_script.py",
            mkToast "Code downloaded" (JStr "Python script has been downloaded") None)
  | None => None
  end.

(** [executeCode] up to the [await]: the state with [isLoading] set and
    the request, or nothing when there is no code. *)
Definition executeCode_begin (visualization : option GeneratedVisualization.t)
    (st : t) : option (t * Request) :=
  match code_of visualization with
  | Some v =>
      Some (mk (activeTab st) true (previewImage st),
            mkRequest "/api/visualization/execute"
              (GeneratedVisualization.pythonCode v)
              (GeneratedVisualization.dataset v))
  | None => None
  end.

Definition error_toast (description : jsval) : Toast :=
  mkToast "Error" description (Some "destructive").

(** [executeCode] from the [await] on.  [response] is the outcome of
    the post: [response.data], or the message of the error thrown. *)
Definition executeCode_end (response : js jsval) (st : t) : t * Toast :=
  let '(st, toast) :=
    try_catch
      (data <- response ;;
       success <- get_prop data "success" ;;
       ok <- (if truthy success
              then chart_image <- get_prop data "chart_image" ;;
                   ret (truthy chart_image)
              else ret false) ;;
       if ok : bool then
         chart_image <- get_prop data "chart_image" ;;
         ret (mk (activeTab st) (isLoading st) chart_image,
              mkToast "Execution successful" (JStr "Visualization updated") None)
       else
         error_message <- get_prop data "error_message" ;;
         ret (st, error_toast (js_or error_message (JStr "Execution failed"))))
      (fun message => (st, error_toast (JStr message))) in
  (mk (activeTab st) false (previewImage st), toast).
End PreviewPanel.

(** The visualization that the app holds is the one the effect of
    ChartBuilder gives for the current selection. *)
Definition settled (p : Platform) : Prop :=
  App.visualization (app p)
  = ChartBuilder.effect (builder p) (App.dataset (app p)).

(** The number of line feeds of a text. *)
Fixpoint count_nl (s : string) : nat :=
  match s with
  | EmptyString => 0
  | String c rest => (if (c =? "010")%char then 1 else 0) + count_nl rest
  end.

(** [pythonCode.split('\n').length], the line count that PreviewPanel
    shows above the code. *)
Definition line_count (pythonCode : string) : nat := S (count_nl pythonCode).

(** Sample inputs for the components. *)
Definition response_ok : jsval :=
  JObj [("success", JBool true); ("chart_image", JStr "data:image/png;base64,AAAA")].
Definition response_failed : jsval :=
  JObj [("success", JBool false); ("error_message", JStr "NameError: name 'x'")].
Definition chart_heatmap : ChartDescriptor.t := nth 3 mockChartTypes no_chart.
Definition dataset_weighted : Dataset.t :=
  Dataset.mk "W" ["A"; "B"] [number_of_Z 1; number_of_Z 2]
    (Some [mkNumber 5 1; mkNumber 25 2]) (Some "weights").
Definition parsed_rows_only : jsval :=
  JObj [("rows", JArr [JStr "A"])].
Definition parsed_cols_text : jsval :=
  JObj [("rows", JArr [JStr "A"]); ("cols", JStr "1,2")].
Definition text_rows_only : string :=
  "{" ++ q "rows" ++ ":[" ++ q "A" ++ "]}".
Definition text_cols_text : string :=
  "{" ++ q "rows" ++ ":[" ++ q "A" ++ "]," ++ q "cols" ++ ":" ++ q "1,2" ++ "}".

(* ================================================================== *)
(** ** Lemmas on text *)
(* ================================================================== *)

Lemma append_assoc_s (a b c : string) : (a ++ b) ++ c = a ++ b ++ c.
Proof. induction a as [|x a IH]; simpl; [reflexivity | now rewrite IH]. Qed.

Lemma prefix_append (n rest : string) : String.prefix n (n ++ rest) = true.
Proof.
  induction n as [|x n IH]; simpl.
  - now destruct rest.
  - destruct (ascii_dec x x) as [_|ne]; [exact IH | now elim ne].
Qed.

Lemma prefix_inv (n h : string) :
  String.prefix n h = true -> exists rest, h = n ++ rest.
Proof.
  revert h; induction n as [|x n IH]; intros h H.
  - now exists h.
  - destruct h as [|y h]; simpl in H; [discriminate|].
    destruct (ascii_dec x y) as [->|]; [|discriminate].
    destruct (IH h H) as [rest ->]. now exists rest.
Qed.

Lemma Includes_here (n rest : string) : Includes n (n ++ rest).
Proof. now exists "", rest. Qed.

Lemma Includes_cons (n : string) (c : ascii) (h : string) :
  Includes n h -> Includes n (String c h).
Proof. intros (a & b & ->). now exists (String c a), b. Qed.

Lemma Includes_app_r (n a h : string) : Includes n h -> Includes n (a ++ h).
Proof.
  intros (x & y & ->). exists (a ++ x), y. now rewrite append_assoc_s.
Qed.

Lemma Includes_app_l (n h b : string) : Includes n h -> Includes n (h ++ b).
Proof.
  intros (x & y & ->). exists x, (y ++ b). now rewrite !append_assoc_s.
Qed.

(** [includes] decides [Includes]. *)
Lemma includes_Includes (n h : string) : includes n h = true <-> Includes n h.
Proof.
  split.
  - induction h as [|c h IH]; cbn [includes]; intros H.
    + rewrite orb_false_r in H. destruct (prefix_inv _ _ H) as [r ->].
      apply Includes_here.
    + apply orb_true_iff in H as [H|H].
      * destruct (prefix_inv _ _ H) as [r ->]. apply Includes_here.
      * apply Includes_cons, IH, H.
  - intros (a & b & ->). induction a as [|c a IH].
    + change ("" ++ n ++ b) with (n ++ b).
      destruct (n ++ b) eqn:E; cbn [includes]; rewrite <- E, prefix_append;
        reflexivity.
    + change (String c a ++ n ++ b) with (String c (a ++ n ++ b)).
      cbn [includes]. rewrite IH. apply orb_true_r.
Qed.

Lemma not_includes (n h : string) : includes n h = false -> ~ Includes n h.
Proof. intros H I. apply includes_Includes in I. congruence. Qed.

Lemma Starts_nil (h : string) : Starts "" h.
Proof. now exists h. Qed.

Lemma Starts_cons (c : ascii) (n h : string) :
  Starts n h -> Starts (String c n) (String c h).
Proof. intros [r ->]. now exists r. Qed.

Lemma Starts_app (x n h : string) : Starts n h -> Starts (x ++ n) (x ++ h).
Proof. intros [r ->]. exists r. now rewrite append_assoc_s. Qed.

Lemma Starts_Includes (n h : string) : Starts n h -> Includes n h.
Proof. intros [r ->]. apply Includes_here. Qed.

(** Bring a template to a right-nested sequence of characters and
    interpolated texts. *)
Ltac flatten :=
  cbn [lines String.concat append];
  repeat (rewrite !append_assoc_s; cbn [append]).

(** The needle starts here, character by character. *)
Ltac starts :=
  repeat first [apply Starts_nil | apply Starts_cons | apply Starts_app].

(** Look for the needle from left to right. *)
Ltac search :=
  first [ apply Starts_Includes; solve [starts]
        | apply Includes_cons; search
        | apply Includes_app_r; search ].

(* ================================================================== *)
(** ** The generator: dispatch *)
(* ================================================================== *)

(** Every script is the common preamble followed by the text of one
    case of the [switch]. *)
Lemma generate_split (ct : ChartDescriptor.t) (ds : Dataset.t) (cu : Customization.t) :
  exists body,
    generateMockPythonCode ct ds cu = common_preamble ds cu ++ body
    /\ ((forall id, In id recognized_ids -> (ChartDescriptor.id ct =? id)%string = false) ->
        body = default_body ds).
Proof.
  unfold generateMockPythonCode, common_preamble. cbv zeta.
  destruct (has_values (Dataset.values ds));
    repeat match goal with
           | |- context [if (ChartDescriptor.id ct =? ?s)%string then _ else _] =>
               destruct (ChartDescriptor.id ct =? s)%string eqn:?
           end;
    eexists; (split; [rewrite ?append_assoc_s; reflexivity |]);
    intros H;
    try reflexivity;
    exfalso;
    match goal with
    | E : (ChartDescriptor.id ct =? ?s)%string = true |- _ =>
        rewrite (H s) in E; [discriminate | simpl; tauto]
    end.
Qed.

Lemma generate_default (ct : ChartDescriptor.t) (ds : Dataset.t) (cu : Customization.t) :
  ~ In (ChartDescriptor.id ct) recognized_ids ->
  generateMockPythonCode ct ds cu = common_preamble ds cu ++ default_body ds.
Proof.
  intros H. destruct (generate_split ct ds cu) as (body & -> & Hb).
  rewrite Hb; [reflexivity|].
  intros id Hid. apply String.eqb_neq. intros E. apply H. now rewrite E.
Qed.

(* ================================================================== *)
(** ** Numbers in the generated text *)
(* ================================================================== *)

Lemma strip_trailing_zeros_length (s : string) :
  (String.length (strip_trailing_zeros s) <= String.length s)%nat.
Proof.
  induction s as [|c s IH]; simpl; [lia|].
  destruct ((strip_trailing_zeros s =? "")%string && (c =? "0")%char); simpl; lia.
Qed.

Lemma repeat_zero_all (s : string) :
  strip_trailing_zeros s = "" -> repeat_string "0" (String.length s) = s.
Proof.
  induction s as [|c s IH]; simpl; [reflexivity|].
  destruct (String.eqb_spec (strip_trailing_zeros s) "") as [E|E]; simpl.
  - destruct (Ascii.eqb_spec c "0") as [->|]; [|discriminate].
    intros _. now rewrite IH.
  - discriminate.
Qed.

(** Putting the stripped zeros back restores the digits. *)
Lemma strip_trailing_zeros_restore (s : string) :
  strip_trailing_zeros s
    ++ repeat_string "0" (String.length s - String.length (strip_trailing_zeros s))
  = s.
Proof.
  induction s as [|c s IH]; [reflexivity|].
  cbn [strip_trailing_zeros].
  destruct (String.eqb_spec (strip_trailing_zeros s) "") as [E|E].
  - destruct (Ascii.eqb_spec c "0") as [->|]; cbn [andb].
    + cbn [String.length append Nat.sub repeat_string].
      now rewrite (repeat_zero_all s E).
    + cbn [String.length append Nat.sub]. now rewrite IH.
  - cbn [andb String.length append Nat.sub]. now rewrite IH.
Qed.

(** A positive whole number of at most 21 digits is printed as its
    numeral. *)
Lemma Number_toString_pos_digits (p : positive) :
  (String.length (digits_of_pos p) <= 21)%nat ->
  Number_toString_pos p 0 = digits_of_pos p.
Proof.
  intros Hp. unfold Number_toString_pos.
  pose proof (strip_trailing_zeros_length (digits_of_pos p)) as Hk.
  set (all := digits_of_pos p) in *. set (s := strip_trailing_zeros all) in *.
  replace (Z.of_nat (String.length s) <=? Z.of_nat (String.length all) - Z.of_nat 0)
    with true by (symmetry; apply Z.leb_le; lia).
  replace (Z.of_nat (String.length all) - Z.of_nat 0 <=? 21)
    with true by (symmetry; apply Z.leb_le; lia).
  cbn [andb].
  replace (Z.to_nat (Z.of_nat (String.length all) - Z.of_nat 0
                     - Z.of_nat (String.length s)))
    with (String.length all - String.length s)%nat by lia.
  apply strip_trailing_zeros_restore.
Qed.

Lemma Number_toString_digits (w : Z) :
  (numeral_length w <= 21)%nat ->
  Number_toString (mkNumber w 0) = digits_of_Z w.
Proof.
  unfold numeral_length, Number_toString.
  destruct w as [|p|p]; cbn [mant scale Z.abs digits_of_Z]; intros H.
  - reflexivity.
  - now apply Number_toString_pos_digits.
  - now rewrite Number_toString_pos_digits.
Qed.

(** *** Digits and magnitude *)

Lemma length_string_of_uint (d : Decimal.uint) :
  String.length (NilEmpty.string_of_uint d) = Decimal.nb_digits d.
Proof. induction d; cbn; congruence. Qed.

Lemma of_lu_lower_step (u : Decimal.uint) (k : N) :
  u <> Decimal.Nil ->
  (10 ^ N.of_nat (Decimal.nb_digits u - 1) <= DecimalPos.Unsigned.of_lu u)%N ->
  (10 ^ N.of_nat (Decimal.nb_digits u) <= k + 10 * DecimalPos.Unsigned.of_lu u)%N.
Proof.
  intros Hu IH.
  destruct u; [congruence | ..]; cbn [Decimal.nb_digits] in *;
    rewrite Nat.sub_succ, Nat.sub_0_r in IH;
    rewrite Nnat.Nat2N.inj_succ, N.pow_succ_r'; lia.
Qed.

(** A little-endian numeral without leading zeros is at least the
    power of ten of its length less one. *)
Lemma of_lu_lower (d : Decimal.uint) :
  d <> Decimal.Nil -> DecimalFacts.nztail d = d ->
  (10 ^ N.of_nat (Decimal.nb_digits d - 1) <= DecimalPos.Unsigned.of_lu d)%N.
Proof.
  induction d; intros Hn Hz; [congruence | ..];
    cbn [DecimalFacts.nztail] in Hz;
    cbn [DecimalPos.Unsigned.of_lu Decimal.nb_digits];
    rewrite Nat.sub_succ, Nat.sub_0_r;
    first
      [ injection Hz as Hz;
        destruct (Decimal.uint_eq_dec d Decimal.Nil) as [->|Hd];
        [ cbn; lia | apply of_lu_lower_step; [exact Hd | apply IHd; assumption] ]
      | assert (E : DecimalFacts.nztail d = d /\ d <> Decimal.Nil)
          by (destruct (DecimalFacts.nztail d) eqn:E; try discriminate Hz;
              injection Hz as Hz; subst d; (split; [reflexivity | discriminate]));
        destruct E as [E Hd];
        rewrite <- (N.add_0_l (10 * _));
        apply of_lu_lower_step; [exact Hd | apply IHd; assumption] ].
Qed.

(** A positive whole number below [10^k] has at most [k] digits. *)
Lemma digits_of_pos_length (p : positive) (k : nat) :
  Zpos p < 10 ^ Z.of_nat k -> (String.length (digits_of_pos p) <= k)%nat.
Proof.
  intros H. unfold digits_of_pos. rewrite length_string_of_uint.
  unfold Pos.to_uint. rewrite DecimalFacts.nb_digits_rev.
  set (d := Pos.to_little_uint p).
  assert (V : DecimalPos.Unsigned.of_lu d = Npos p).
  { rewrite <- (DecimalPos.Unsigned.of_to p), DecimalPos.Unsigned.of_uint_alt.
    unfold Pos.to_uint. now rewrite DecimalFacts.rev_rev. }
  assert (Z : DecimalFacts.nztail d <> Decimal.Nil).
  { intros E. apply DecimalPos.Unsigned.of_lu_0 in E. rewrite V in E. discriminate E. }
  assert (L : DecimalFacts.nztail d = d).
  { pose proof (DecimalPos.Unsigned.to_of_lu d) as T. rewrite V in T.
    cbn [DecimalPos.Unsigned.to_lu] in T. fold d in T.
    unfold DecimalFacts.lnorm in T.
    destruct (DecimalFacts.nztail d); [congruence | symmetry; exact T ..]. }
  assert (N : d <> Decimal.Nil) by (intros E; rewrite E in Z; now apply Z).
  pose proof (of_lu_lower d N L) as B. rewrite V in B.
  destruct (Nat.le_gt_cases (Decimal.nb_digits d) k) as [G|G]; [exact G | exfalso].
  assert (M : (10 ^ N.of_nat k <= 10 ^ N.of_nat (Decimal.nb_digits d - 1))%N)
    by (apply N.pow_le_mono_r; lia).
  apply N2Z.inj_le in B, M. rewrite N2Z.inj_pow, nat_N_Z in B, M.
  change (Z.of_N 10) with 10 in *. change (Z.of_N (Npos p)) with (Zpos p) in B. lia.
Qed.

(** *** Whole numbers as doubles *)

Lemma round_half_even_lower (n d : Z) : n / d <= round_half_even n d.
Proof.
  unfold round_half_even.
  destruct (2 * (n mod d) <? d); [lia|].
  destruct (d <? 2 * (n mod d)); [lia|].
  destruct (Z.even (n / d)); lia.
Qed.

(** From [2^53] on the nearest double of a whole number has a mantissa
    of 53 bits and a positive exponent. *)
Lemma nearest_double_whole (n : Z) :
  2 ^ 53 <= n ->
  2 ^ 52 <= fst (nearest_double n 1) /\ 1 <= snd (nearest_double n 1).
Proof.
  intros H. unfold nearest_double.
  change (Z.log2 1) with 0. rewrite Z.sub_0_r.
  assert (L : 53 <= Z.log2 n) by (change 53 with (Z.log2 (2 ^ 53)); now apply Z.log2_le_mono).
  set (e0 := Z.log2 n - 52).
  assert (E0 : 1 <= e0) by (unfold e0; lia).
  replace (0 <=? e0) with true by (symmetry; apply Z.leb_le; lia).
  cbn [fst snd]. rewrite Z.mul_1_l.
  assert (Q : 2 ^ 52 <= n / 2 ^ e0).
  { apply Z.div_le_lower_bound; [apply Z.pow_pos_nonneg; lia|].
    rewrite Z.mul_comm, <- Z.pow_add_r by lia.
    replace (52 + e0) with (Z.log2 n) by (unfold e0; lia).
    apply Z.log2_spec. lia. }
  replace (n / 2 ^ e0 <? 2 ^ 52) with false by (symmetry; apply Z.ltb_ge; exact Q).
  replace (0 <=? e0) with true by (symmetry; apply Z.leb_le; lia).
  cbn [fst snd]. rewrite Z.mul_1_l.
  pose proof (round_half_even_lower n (2 ^ e0)) as R.
  destruct (round_half_even n (2 ^ e0) =? 2 ^ 53); cbn [fst snd]; lia.
Qed.

Lemma double_of_pos_big (p : positive) :
  2 ^ 53 <= Zpos p -> 2 ^ 53 <= double_of_pos p.
Proof.
  intros H. unfold double_of_pos.
  replace (Zpos p <? 2 ^ 53) with false by (symmetry; apply Z.ltb_ge; exact H).
  destruct (nearest_double_whole (Zpos p) H) as [M E].
  destruct (nearest_double (Zpos p) 1) as [m e]. cbn [fst snd] in M, E.
  assert (2 <= 2 ^ e) by (change 2 with (2 ^ 1) at 1; apply Z.pow_le_mono_r; lia).
  change (2 ^ 53) with (2 ^ 52 * 2). apply Z.mul_le_mono_nonneg; lia.
Qed.

(** A safe integer (below [2^53] in magnitude) is a double. *)
Lemma double_of_Z_safe (w : Z) : Z.abs w < 2 ^ 53 -> double_of_Z w = w.
Proof.
  destruct w as [|p|p]; cbn [double_of_Z Z.abs]; intros H; [reflexivity | ..];
    unfold double_of_pos;
    replace (Zpos p <? 2 ^ 53) with true by (symmetry; apply Z.ltb_lt; exact H);
    reflexivity.
Qed.

(** No other whole number of the same sign is read as a given safe
    integer. *)
Lemma double_of_Z_safe_inv (c v : Z) :
  0 <= c -> 0 < v < 2 ^ 53 -> double_of_Z c = v -> c = v.
Proof.
  intros Hc Hv E. destruct c as [|p|p]; cbn [double_of_Z] in E; [lia | | lia].
  destruct (Z.lt_ge_cases (Zpos p) (2 ^ 53)) as [S|B].
  - unfold double_of_pos in E.
    replace (Zpos p <? 2 ^ 53) with true in E by (symmetry; apply Z.ltb_lt; exact S).
    exact E.
  - apply double_of_pos_big in B. lia.
Qed.

(** The shortest decimal of a safe integer is the integer itself. *)
Lemma shortest_whole_safe (j : nat) (v : Z) :
  0 < v < 2 ^ 53 -> shortest_whole j v = v.
Proof.
  intros Hv. induction j as [|j IH]; [reflexivity|].
  cbn [shortest_whole].
  set (step := 10 ^ Z.of_nat (S j)).
  assert (Hs : 0 < step) by (apply Z.pow_pos_nonneg; lia).
  pose proof (Z.mul_div_le v step Hs) as Hlo. rewrite Z.mul_comm in Hlo.
  assert (Hq : 0 <= v / step) by (apply Z.div_pos; lia).
  set (lo := v / step * step) in *.
  assert (Hlo0 : 0 <= lo) by (unfold lo; apply Z.mul_nonneg_nonneg; lia).
  pose proof (Z.mod_pos_bound v step Hs) as Hm.
  assert (Hhi : v < lo + step).
  { unfold lo. rewrite (Z.div_mod v step) at 1 by lia. lia. }
  assert (Khi : (double_of_Z (lo + step) =? v) = false).
  { apply Z.eqb_neq. intros E. apply double_of_Z_safe_inv in E; lia. }
  rewrite Khi, andb_false_r.
  destruct (double_of_Z lo =? v) eqn:Klo; [|exact IH].
  apply Z.eqb_eq in Klo. apply double_of_Z_safe_inv in Klo; lia.
Qed.

Lemma number_of_Z_safe (w : Z) :
  Z.abs w < 2 ^ 53 -> number_of_Z w = mkNumber w 0.
Proof.
  assert (P : forall p, Zpos p < 2 ^ 53 -> shortest_pos p = p).
  { intros p H. unfold shortest_pos.
    replace (double_of_pos p) with (Zpos p)
      by (symmetry; apply (double_of_Z_safe (Zpos p)); exact H).
    rewrite shortest_whole_safe by lia. reflexivity. }
  destruct w as [|p|p]; cbn [number_of_Z Z.abs]; intros H;
    [reflexivity | now rewrite P ..].
Qed.

(** The shortest decimal of a double reads back as that double. *)
Lemma shortest_whole_reads_back (j : nat) (v : Z) :
  0 < v -> double_of_Z v = v ->
  0 < shortest_whole j v /\ double_of_Z (shortest_whole j v) = v.
Proof.
  intros Hv Hd. induction j as [|j IH]; [now split|].
  cbn [shortest_whole].
  set (step := 10 ^ Z.of_nat (S j)).
  assert (Hs : 0 < step) by (apply Z.pow_pos_nonneg; lia).
  assert (Hq : 0 <= v / step) by (apply Z.div_pos; lia).
  set (lo := v / step * step) in *.
  assert (Hlo0 : 0 <= lo) by (unfold lo; apply Z.mul_nonneg_nonneg; lia).
  assert (Klo : double_of_Z lo = v -> 0 < lo /\ double_of_Z lo = v).
  { intros E. split; [|exact E]. destruct lo; [cbn in E; lia | lia | lia]. }
  assert (Khi : double_of_Z (lo + step) = v
                -> 0 < lo + step /\ double_of_Z (lo + step) = v)
    by (intros E; split; [lia | exact E]).
  destruct (double_of_Z lo =? v) eqn:A; destruct (double_of_Z (lo + step) =? v) eqn:B;
    cbn [andb]; rewrite ?Z.eqb_eq in *; try (now auto).
  destruct (_ || _); auto.
Qed.

(** The number printed for a double has no fraction and reads back as
    that double. *)
Lemma number_of_Z_reads_back (w : Z) :
  double_of_Z w = w ->
  scale (number_of_Z w) = 0%nat /\ double_of_Z (mant (number_of_Z w)) = w.
Proof.
  assert (P : forall p, double_of_pos p = Zpos p ->
                        double_of_pos (shortest_pos p) = Zpos p).
  { intros p E. unfold shortest_pos. rewrite E.
    destruct (shortest_whole_reads_back
                (String.length (digits_of_Z (Zpos p)) - 1) (Zpos p)) as [G R];
      [lia | exact E |].
    destruct (shortest_whole _ _) as [|c|c]; [lia | exact R | lia]. }
  destruct w as [|p|p]; cbn [number_of_Z double_of_Z mant scale]; intros E;
    (split; [reflexivity|]); [reflexivity | apply P; exact E |].
  rewrite P by lia. reflexivity.
Qed.

Lemma numeral_length_safe (w : Z) :
  Z.abs w < 2 ^ 53 -> (numeral_length w <= 21)%nat.
Proof.
  unfold numeral_length. intros H.
  destruct (Z.abs w) as [|p|p] eqn:E; cbn [digits_of_Z]; [cbn; lia | | lia].
  apply digits_of_pos_length.
  change (10 ^ Z.of_nat 21) with 1000000000000000000000.
  change (2 ^ 53) with 9007199254740992 in H. lia.
Qed.

(** A safe integer is printed as its numeral. *)
Lemma Number_toString_whole (w : Z) :
  Z.abs w < 2 ^ 53 ->
  Number_toString (number_of_Z w) = digits_of_Z w.
Proof.
  intros H. rewrite number_of_Z_safe by exact H.
  apply Number_toString_digits, numeral_length_safe, H.
Qed.

(** A whole number of hundreds, divided by 100. *)
Lemma div100_hundreds (a : Z) :
  Z.abs (100 * a) < 2 ^ 53 -> div100 (100 * a) = mkNumber a 0.
Proof.
  intros H. unfold div100.
  rewrite double_of_Z_safe by exact H.
  rewrite Z.mul_comm, Z.mod_mul, Z.div_mul by lia. cbn [Z.eqb].
  apply number_of_Z_safe. lia.
Qed.

Lemma digits_of_Z_int (w : Z) :
  digits_of_Z w = NilZero.string_of_int (Z.to_int w).
Proof.
  destruct w as [|p|p]; [reflexivity | |];
    unfold digits_of_Z, digits_of_pos; cbn [Z.to_int NilZero.string_of_int];
    unfold NilZero.string_of_uint;
    pose proof (DecimalPos.Unsigned.to_uint_nonnil p);
    destruct (Pos.to_uint p); try reflexivity; congruence.
Qed.

(** Reading a numeral back gives the number. *)
Lemma literal_value_digits (w : Z) : literal_value (digits_of_Z w) = Some w.
Proof.
  unfold literal_value. rewrite digits_of_Z_int, NilZero.isi.
  - cbn [option_map]. now rewrite DecimalZ.of_to.
  - destruct w as [|p|p]; cbn [Z.to_int]; try discriminate.
    intros [= E]. now apply (DecimalPos.Unsigned.to_uint_nonnil p).
  - destruct w as [|p|p]; cbn [Z.to_int]; try discriminate.
    intros [= E]. now apply (DecimalPos.Unsigned.to_uint_nonnil p).
Qed.

(** The literal printed for a safe integer reads back as the integer. *)
Lemma literal_value_whole (w : Z) :
  Z.abs w < 2 ^ 53 ->
  literal_value (Number_toString (number_of_Z w)) = Some w.
Proof.
  intros H. rewrite Number_toString_whole by exact H. apply literal_value_digits.
Qed.

(** *** Reading a printed number *)

Lemma all_digits_string_of_uint (d : Decimal.uint) :
  all_digits (NilEmpty.string_of_uint d) = true.
Proof.
  induction d; [reflexivity | ..];
    cbn [NilEmpty.string_of_uint all_digits]; rewrite IHd; reflexivity.
Qed.

Lemma all_digits_strip (s : string) :
  all_digits s = true -> all_digits (strip_trailing_zeros s) = true.
Proof.
  induction s as [|c s IH]; [reflexivity|].
  cbn [all_digits strip_trailing_zeros]. intros H.
  apply andb_true_iff in H as [Hc Hs].
  destruct (_ && _); [reflexivity|].
  cbn [all_digits]. now rewrite Hc, IH.
Qed.

(** The digits of a text end where something else begins. *)
Lemma span_digits_app (a b : string) :
  all_digits a = true ->
  match b with EmptyString => true | String c _ => negb (is_digit c) end = true ->
  span_digits (a ++ b) = (a, b).
Proof.
  intros Ha Hb. induction a as [|c a IH]; cbn [append].
  - destruct b as [|c b]; [reflexivity|].
    cbn [span_digits]. apply negb_true_iff in Hb. now rewrite Hb.
  - cbn [all_digits] in Ha. apply andb_true_iff in Ha as [Hc Ha].
    cbn [span_digits]. now rewrite Hc, IH.
Qed.

Lemma digits_value_app (a b : string) (acc : Z) :
  digits_value (a ++ b) acc = digits_value b (digits_value a acc).
Proof. revert acc. induction a; intros acc; cbn; [reflexivity | apply IHa]. Qed.

Lemma digits_value_acc (s : string) (acc : Z) :
  digits_value s acc = acc * 10 ^ Z.of_nat (String.length s) + digits_value s 0.
Proof.
  revert acc. induction s as [|c s IH]; intros acc.
  - cbn. lia.
  - cbn [digits_value String.length]. rewrite IH.
    rewrite (IH (10 * 0 + _)), Nat2Z.inj_succ, Z.pow_succ_r by lia. lia.
Qed.

Lemma digits_value_zeros (m : nat) : digits_value (repeat_string "0" m) 0 = 0.
Proof. induction m; [reflexivity | exact IHm]. Qed.

Lemma length_repeat_zero (m : nat) : String.length (repeat_string "0" m) = m.
Proof. induction m; cbn; congruence. Qed.

Lemma digits_value_of_uint_acc (d : Decimal.uint) (acc : positive) :
  digits_value (NilEmpty.string_of_uint d) (Zpos acc) = Zpos (Pos.of_uint_acc d acc).
Proof.
  revert acc. induction d; intros acc; [reflexivity | ..];
    cbn [NilEmpty.string_of_uint digits_value Pos.of_uint_acc];
    match goal with
    | |- digits_value _ ?x = _ =>
        match goal with
        | |- _ = Zpos (Pos.of_uint_acc _ ?y) => replace x with (Zpos y)
            by (rewrite ?Pos2Z.inj_add, ?Pos2Z.inj_mul; simpl (Z.of_nat _); lia)
        end
    end; apply IHd.
Qed.

Lemma digits_value_of_uint (d : Decimal.uint) :
  digits_value (NilEmpty.string_of_uint d) 0 = Z.of_N (Pos.of_uint d).
Proof.
  induction d; [reflexivity | exact IHd | ..];
    cbn [NilEmpty.string_of_uint digits_value Pos.of_uint];
    apply digits_value_of_uint_acc.
Qed.

(** The digits of a positive number have its value. *)
Lemma digits_value_pos (p : positive) : digits_value (digits_of_pos p) 0 = Zpos p.
Proof.
  unfold digits_of_pos. now rewrite digits_value_of_uint, DecimalPos.Unsigned.of_to.
Qed.

Lemma span_digits_all (a : string) : all_digits a = true -> span_digits a = (a, "").
Proof.
  intros H. induction a as [|c a IH]; [reflexivity|].
  cbn [all_digits] in H. apply andb_true_iff in H as [Hc Ha].
  cbn [span_digits]. now rewrite Hc, IH.
Qed.

Lemma all_digits_pos (p : positive) : all_digits (digits_of_pos p) = true.
Proof. apply all_digits_string_of_uint. Qed.

(** The stripped digits of a positive number: digits, not empty, and
    with the value the number has without its trailing zeros. *)
Lemma stripped_digits (p : positive) :
  let all := digits_of_pos p in
  let s := strip_trailing_zeros all in
  all_digits s = true
  /\ s <> ""
  /\ (String.length s <= String.length all)%nat
  /\ Zpos p = digits_value s 0
              * 10 ^ (Z.of_nat (String.length all) - Z.of_nat (String.length s)).
Proof.
  intros all s.
  pose proof (strip_trailing_zeros_length all) as Hk. fold s in Hk.
  assert (V : Zpos p = digits_value s 0
                       * 10 ^ Z.of_nat (String.length all - String.length s)).
  { rewrite <- (digits_value_pos p). fold all.
    rewrite <- (strip_trailing_zeros_restore all) at 1. fold s.
    rewrite digits_value_app, digits_value_acc, digits_value_zeros, length_repeat_zero.
    lia. }
  split; [apply all_digits_strip, all_digits_pos|].
  split; [|split; [exact Hk | rewrite V at 1; f_equal; f_equal; lia]].
  intros E. rewrite E in V. cbn in V. lia.
Qed.

(** Reading back what [Number::toString] prints for a positive whole
    number gives the number, in each of the layouts. *)
Lemma unsigned_literal_number_printed (p : positive) :
  unsigned_literal_number (Number_toString_pos p 0) = Some (Zpos p).
Proof.
  destruct (stripped_digits p) as (Hs & Hne & Hk & V).
  pose proof (all_digits_pos p) as Ha.
  destruct (Nat.le_gt_cases (String.length (digits_of_pos p)) 21) as [L|L].
  - rewrite Number_toString_pos_digits by exact L.
    unfold unsigned_literal_number. rewrite span_digits_all by exact Ha.
    assert (N : digits_of_pos p <> "").
    { intros E. pose proof (digits_value_pos p) as Vp. rewrite E in Vp. discriminate Vp. }
    destruct (String.eqb_spec (digits_of_pos p) "") as [E|_]; [now apply N in E|].
    cbn [negb andb String.length Z.of_nat Z.leb Z.compare].
    rewrite digits_value_app. cbn [digits_value].
    rewrite digits_value_pos. f_equal. cbn. lia.
  - unfold Number_toString_pos.
    set (all := digits_of_pos p) in *. set (s := strip_trailing_zeros all) in *.
    replace (Z.of_nat (String.length all) - Z.of_nat 0 <=? 21)
      with false by (symmetry; apply Z.leb_gt; lia).
    rewrite !andb_false_r.
    replace (Z.of_nat (String.length all) - Z.of_nat 0 <=? 0)
      with false by (symmetry; apply Z.leb_gt; lia).
    rewrite andb_false_r. cbv zeta.
    replace (Z.of_nat (String.length all) - Z.of_nat 0 - 1 <? 0)
      with false by (symmetry; apply Z.ltb_ge; lia).
    destruct (Z.of_nat (String.length all) - Z.of_nat 0 - 1) as [|q|q] eqn:Eq; try lia.
    cbn [Z.abs digits_of_Z].
    pose proof (all_digits_pos q) as Hq.
    assert (Nq : digits_of_pos q <> "").
    { intros E. pose proof (digits_value_pos q) as Vq. rewrite E in Vq. discriminate Vq. }
    destruct s as [|c rest] eqn:Es; [now exfalso; apply Hne|].
    cbn [all_digits] in Hs. apply andb_true_iff in Hs as [Hc Hrest].
    assert (Dot : (c =? ".")%char = false)
      by (destruct (Ascii.eqb_spec c "."); [subst c; discriminate Hc | reflexivity]).
    destruct rest as [|c' rest'] eqn:Er.
    + (* one digit *)
      cbn [append]. unfold unsigned_literal_number.
      cbn [span_digits]. rewrite Hc. cbn [is_digit nat_of_ascii]. 
      change (is_digit "e") with false. cbv iota beta.
      change ("e" =? ".")%char with false. cbv iota.
      rewrite span_digits_all by exact Hq.
      change (("e" =? "e")%char && ("+" =? "+")%char) with true. cbn [andb].
      destruct (String.eqb_spec (digits_of_pos q) "") as [E|_]; [now apply Nq in E|].
      cbn [negb andb String.eqb String.length Z.of_nat].
      rewrite digits_value_pos.
      replace (0 <=? Zpos q) with true by (symmetry; apply Z.leb_le; lia).
      cbn [negb andb String.eqb append]. f_equal.
      rewrite V. cbn [String.length] in *. f_equal. f_equal. lia.
    + (* several digits *)
      cbn [append]. unfold unsigned_literal_number.
      cbn [span_digits]. rewrite Hc.
      change (is_digit ".") with false. cbv iota beta.
      change ("." =? ".")%char with true. cbv iota.
      change (String c' (rest' ++ String "e" (String "+" (digits_of_pos q))))
        with (String c' rest' ++ String "e" (String "+" (digits_of_pos q))).
      rewrite span_digits_app by (try exact Hrest; reflexivity).
      rewrite span_digits_all by exact Hq.
      change (("e" =? "e")%char && ("+" =? "+")%char) with true. cbn [andb].
      destruct (String.eqb_spec (digits_of_pos q) "") as [E|_]; [now apply Nq in E|].
      cbn [negb andb String.eqb].
      rewrite digits_value_pos.
      replace (Z.of_nat (String.length (String c' rest')) <=? Zpos q)
        with true by (symmetry; apply Z.leb_le; cbn [String.length] in *; lia).
      f_equal. cbn [append] in *. rewrite V. f_equal. f_equal.
      cbn [String.length] in *. lia.
Qed.

(** A literal does not begin with a minus sign. *)
Lemma unsigned_literal_number_minus (rest : string) :
  unsigned_literal_number (String "-" rest) = None.
Proof.
  destruct rest as [|c2 r2]; [reflexivity|].
  unfold unsigned_literal_number. cbn [span_digits].
  change (is_digit "-") with false. cbv iota beta.
  change ("-" =? ".")%char with false. cbv iota beta.
  destruct (span_digits r2) as [e r3].
  change ("-" =? "e")%char with false. reflexivity.
Qed.

(** Reading back the printed text of a whole number gives the number. *)
Lemma literal_number_printed (c : Z) :
  literal_number (Number_toString (mkNumber c 0)) = Some c.
Proof.
  unfold Number_toString. destruct c as [|p|p]; cbn [mant scale]; [reflexivity | |].
  - pose proof (unsigned_literal_number_printed p) as U. unfold literal_number.
    destruct (Number_toString_pos p 0) as [|ch rest]; [discriminate U|].
    destruct (Ascii.eqb_spec ch "-") as [->|]; [|exact U].
    rewrite unsigned_literal_number_minus in U. discriminate U.
  - unfold literal_number. cbn [append]. change ("-" =? "-")%char with true. cbv iota.
    now rewrite unsigned_literal_number_printed.
Qed.

(** The literal printed for a double denotes a whole number that is
    read as that double. *)
Lemma literal_number_double (w : Z) :
  is_double w = true ->
  exists c, literal_number (Number_toString (number_of_Z w)) = Some c
            /\ double_of_Z c = w.
Proof.
  intros D. apply andb_true_iff in D as [D _]. apply Z.eqb_eq in D.
  destruct (number_of_Z_reads_back w D) as [S R].
  exists (mant (number_of_Z w)). split; [|exact R].
  destruct (number_of_Z w) as [m s]. cbn [mant scale] in *. subst s.
  apply literal_number_printed.
Qed.

(** Above [2^53] the printed digits are the shortest that denote the
    double, not always those of the whole number; dividing by 100
    rounds as well. *)
Example printed_beyond_safe_integers :
  Number_toString (number_of_Z (2 ^ 64)) = "18446744073709552000"
  /\ is_double (2 ^ 64) = true
  /\ double_of_Z 18446744073709552000 = 2 ^ 64
  /\ Number_toString (number_of_Z (2 ^ 53)) = "9007199254740992"
  /\ Number_toString (number_of_Z (2 ^ 53 + 1)) = "9007199254740992"
  /\ Number_toString (number_of_Z (10 ^ 21)) = "1e+21"
  /\ Number_toString (div100 9007199254740991) = "90071992547409.9"
  /\ Number_toString (div100 1250) = "12.5"
  /\ Number_toString (div100 1) = "0.01".
Proof. repeat split; vm_compute; reflexivity. Qed.

(* ================================================================== *)
(** ** The generator: style and theme *)
(* ================================================================== *)

(** A catalog entry is an object, so it is never [=== 'dark']. *)
Lemma catalog_theme_not_dark_string (t : jsval) :
  In t mock_themes -> strict_eq_string t "dark" = false.
Proof.
  simpl. intros [<-|[<-|[<-|[<-|[]]]]]; reflexivity.
Qed.

(** The style line of every script follows the outcome of
    [theme === 'dark']. *)
Lemma style_line (ct : ChartDescriptor.t) (ds : Dataset.t) (cu : Customization.t) :
  Includes
    ("plt.style.use('"
       ++ (if strict_eq_string (Customization.theme cu) "dark"
           then "dark_background" else "default")
       ++ "')" ++ nl)
    (generateMockPythonCode ct ds cu).
Proof.
  destruct (generate_split ct ds cu) as (body & -> & _).
  apply Includes_app_l. unfold common_preamble. cbv zeta.
  do 2 apply Includes_app_r.
  generalize (if strict_eq_string (Customization.theme cu) "dark"
              then "dark_background" else "default").
  intros style. flatten. search.
Qed.

(** With a theme from the catalog, the dark one included, the style
    line is the default one. *)
Lemma style_line_catalog (ct : ChartDescriptor.t) (ds : Dataset.t) (cu : Customization.t) :
  In (Customization.theme cu) mock_themes ->
  Includes ("plt.style.use('default')" ++ nl) (generateMockPythonCode ct ds cu).
Proof.
  intros H. pose proof (style_line ct ds cu) as S.
  now rewrite (catalog_theme_not_dark_string _ H) in S.
Qed.

(** Only the string ['dark'] itself selects the dark style. *)
Lemma style_line_dark_string (ct : ChartDescriptor.t) (ds : Dataset.t) (cu : Customization.t) :
  Customization.theme cu = JStr "dark" ->
  Includes ("plt.style.use('dark_background')" ++ nl) (generateMockPythonCode ct ds cu).
Proof.
  intros H. pose proof (style_line ct ds cu) as S. now rewrite H in S.
Qed.

(** The template line of the interactive chart follows the same test. *)
Lemma plotly_template_line (ct : ChartDescriptor.t) (ds : Dataset.t) (cu : Customization.t) :
  ChartDescriptor.id ct = "plotly_interactive" ->
  Includes
    ("    template='"
       ++ (if strict_eq_string (Customization.theme cu) "dark"
           then "plotly_dark" else "plotly_white")
       ++ "'" ++ nl)
    (generateMockPythonCode ct ds cu).
Proof.
  intros H. unfold generateMockPythonCode. cbv zeta. rewrite H.
  cbn [String.eqb Ascii.eqb Bool.eqb].
  apply Includes_app_r.
  generalize (Number_toString (number_of_Z (Size.width (Customization.size cu)))).
  generalize (Number_toString (number_of_Z (Size.height (Customization.size cu)))).
  generalize (if strict_eq_string (Customization.theme cu) "dark"
              then "plotly_dark" else "plotly_white").
  generalize (element_text (ColorScheme.colors (Customization.colors cu)) 0).
  generalize (element_text (ColorScheme.colors (Customization.colors cu)) 1).
  generalize (Dataset.name ds). intros name c1 c0 template height width.
  flatten. search.
Qed.

Lemma plotly_template_catalog (ct : ChartDescriptor.t) (ds : Dataset.t) (cu : Customization.t) :
  ChartDescriptor.id ct = "plotly_interactive" ->
  In (Customization.theme cu) mock_themes ->
  Includes ("    template='plotly_white'" ++ nl) (generateMockPythonCode ct ds cu).
Proof.
  intros H T. pose proof (plotly_template_line ct ds cu H) as S.
  now rewrite (catalog_theme_not_dark_string _ T) in S.
Qed.

(** The theme selector stores an entry of the catalog, or [undefined]. *)
Lemma onThemeChange_theme (value : string) (prev : Customization.t) :
  In (Customization.theme (onThemeChange value prev)) mock_themes
  \/ Customization.theme (onThemeChange value prev) = JUndefined.
Proof.
  unfold onThemeChange. destruct prev. cbn [updateCustomization Customization.theme].
  destruct (find _ mock_themes) as [t|] eqn:F; [left | now right].
  now apply find_some in F.
Qed.

(** C1 (the code departs from the claim).  Selecting the dark theme in
    ChartBuilder stores the catalog entry of that theme; with it the
    generated line chart still has [plt.style.use('default')] and no
    [dark_background], and the interactive chart still has
    [template='plotly_white'] and no [plotly_dark]. *)
Theorem dark_theme_generates_default_style :
  Customization.theme (onThemeChange "dark" initialCustomization) = theme_dark
  /\ own_field theme_dark "value" = Some (JStr "dark")
  /\ includes "plt.style.use('default')"
       (generateMockPythonCode chart_line dataset_T
          (onThemeChange "dark" initialCustomization)) = true
  /\ includes "dark_background"
       (generateMockPythonCode chart_line dataset_T
          (onThemeChange "dark" initialCustomization)) = false
  /\ includes "template='plotly_white'"
       (generateMockPythonCode chart_plotly dataset_T
          (onThemeChange "dark" initialCustomization)) = true
  /\ includes "plotly_dark"
       (generateMockPythonCode chart_plotly dataset_T
          (onThemeChange "dark" initialCustomization)) = false.
Proof. repeat split; vm_compute; reflexivity. Qed.

(* ================================================================== *)
(** ** The generator: the end-to-end example *)
(* ================================================================== *)

(** C2 (as amended).  For the dataset [{name:"T", rows:["A","B"],
    cols:[1,2]}], chart [matplotlib_line], the clean theme and the
    medium size (1200 x 800), the script contains
    [figsize=figure_size], the binding [figure_size = (12, 8)],
    [plt.style.use('default')] and the title ['T']. *)
Theorem example_line_clean_medium :
  ChartDescriptor.id chart_line = "matplotlib_line"
  /\ Customization.theme customization_clean_medium = theme_clean
  /\ Customization.size customization_clean_medium = Size.mk "Medium" "medium" 1200 800
  /\ includes "figsize=figure_size"
       (generateMockPythonCode chart_line dataset_T customization_clean_medium) = true
  /\ includes "figure_size = (12, 8)"
       (generateMockPythonCode chart_line dataset_T customization_clean_medium) = true
  /\ includes "plt.style.use('default')"
       (generateMockPythonCode chart_line dataset_T customization_clean_medium) = true
  /\ includes "plt.title('T'"
       (generateMockPythonCode chart_line dataset_T customization_clean_medium) = true.
Proof. repeat split; vm_compute; reflexivity. Qed.

(** C2, as stated, fails: the script of the example has no binding
    [figure_size = (12.0, 8.0)], with or without the spaces around the
    equals sign, and no [12.0] at all. *)
Lemma example_line_no_decimal_point :
  includes "figure_size = (12.0, 8.0)"
    (generateMockPythonCode chart_line dataset_T customization_clean_medium) = false
  /\ includes "figure_size=(12.0, 8.0)"
       (generateMockPythonCode chart_line dataset_T customization_clean_medium) = false
  /\ includes "12.0"
       (generateMockPythonCode chart_line dataset_T customization_clean_medium) = false.
Proof. repeat split; vm_compute; reflexivity. Qed.

(* ================================================================== *)
(** ** The generator: the bar chart *)
(* ================================================================== *)

(** C3 (as amended).  For chart id [matplotlib_bar] the script has the
    line [plt.xticks(rotation=45 if len(rows) > 4 else 0)] whatever the
    number of rows: the choice between 45 and 0 is left to the script. *)
Theorem bar_xticks_line (ct : ChartDescriptor.t) (ds : Dataset.t) (cu : Customization.t) :
  ChartDescriptor.id ct = "matplotlib_bar" ->
  Includes (nl ++ xticks_line ++ nl) (generateMockPythonCode ct ds cu).
Proof.
  intros H. unfold generateMockPythonCode. cbv zeta. rewrite H.
  cbn [String.eqb Ascii.eqb Bool.eqb].
  apply Includes_app_r.
  generalize (element_text (ColorScheme.colors (Customization.colors cu)) 0).
  generalize (Dataset.name ds). intros name color.
  unfold xticks_line. flatten. search.
Qed.

Lemma bar_xticks_line_witness :
  ChartDescriptor.id chart_bar = "matplotlib_bar"
  /\ Includes (nl ++ xticks_line ++ nl)
       (generateMockPythonCode chart_bar dataset_3 initialCustomization).
Proof.
  split; [reflexivity | apply (bar_xticks_line chart_bar dataset_3); reflexivity].
Defined.

(** C3, as stated, fails: with three rows the script of the bar chart
    has no [rotation=0], and it has [rotation=45] as it has with five
    rows. *)
Lemma bar_three_rows_no_rotation_zero :
  (List.length (Dataset.rows dataset_3) <= 4)%nat
  /\ includes "rotation=0"
       (generateMockPythonCode chart_bar dataset_3 initialCustomization) = false
  /\ includes "rotation=45"
       (generateMockPythonCode chart_bar dataset_3 initialCustomization) = true
  /\ (List.length (Dataset.rows dataset_5) > 4)%nat
  /\ includes "rotation=45"
       (generateMockPythonCode chart_bar dataset_5 initialCustomization) = true.
Proof. repeat split; vm_compute; solve [reflexivity | lia | auto with arith]. Qed.

(* ================================================================== *)
(** ** The generator: the interactive chart *)
(* ================================================================== *)

(** C8.  For chart id [plotly_interactive] the layout block has the
    lines [width=] and [height=] followed by [size.width] and
    [size.height] as JavaScript prints them.  Each literal equals the
    size it stands for: for every size that a JavaScript number holds,
    the literal denotes a whole number that is read as exactly this
    number; and for every safe integer, which the presets and the
    sliders never leave, the literal is the decimal numeral of the size
    itself. *)
Theorem plotly_size_literals (ct : ChartDescriptor.t) (ds : Dataset.t) (cu : Customization.t) :
  ChartDescriptor.id ct = "plotly_interactive" ->
  Includes
    (layout_size_lines (Size.width (Customization.size cu))
                       (Size.height (Customization.size cu)))
    (generateMockPythonCode ct ds cu)
  /\ (is_double (Size.width (Customization.size cu)) = true ->
      exists c,
        literal_number
          (Number_toString (number_of_Z (Size.width (Customization.size cu)))) = Some c
        /\ double_of_Z c = Size.width (Customization.size cu))
  /\ (is_double (Size.height (Customization.size cu)) = true ->
      exists c,
        literal_number
          (Number_toString (number_of_Z (Size.height (Customization.size cu)))) = Some c
        /\ double_of_Z c = Size.height (Customization.size cu))
  /\ (Z.abs (Size.width (Customization.size cu)) < 2 ^ 53 ->
      literal_value (Number_toString (number_of_Z (Size.width (Customization.size cu))))
      = Some (Size.width (Customization.size cu)))
  /\ (Z.abs (Size.height (Customization.size cu)) < 2 ^ 53 ->
      literal_value (Number_toString (number_of_Z (Size.height (Customization.size cu))))
      = Some (Size.height (Customization.size cu))).
Proof.
  intros H.
  split; [|split; [apply literal_number_double|];
           split; [apply literal_number_double|];
           split; apply literal_value_whole].
  unfold generateMockPythonCode, layout_size_lines. cbv zeta. rewrite H.
  cbn [String.eqb Ascii.eqb Bool.eqb].
  apply Includes_app_r.
  generalize (Number_toString (number_of_Z (Size.width (Customization.size cu)))).
  generalize (Number_toString (number_of_Z (Size.height (Customization.size cu)))).
  generalize (if strict_eq_string (Customization.theme cu) "dark"
              then "plotly_dark" else "plotly_white").
  generalize (element_text (ColorScheme.colors (Customization.colors cu)) 0).
  generalize (element_text (ColorScheme.colors (Customization.colors cu)) 1).
  generalize (Dataset.name ds). intros name c1 c0 template height width.
  flatten. search.
Qed.

Lemma plotly_size_literals_witness :
  ChartDescriptor.id chart_plotly = "plotly_interactive"
  /\ Includes (layout_size_lines 1200 800)
       (generateMockPythonCode chart_plotly dataset_T initialCustomization)
  /\ (exists c, literal_number (Number_toString (number_of_Z 1200)) = Some c
                /\ double_of_Z c = 1200)
  /\ (exists c, literal_number (Number_toString (number_of_Z 800)) = Some c
                /\ double_of_Z c = 800)
  /\ literal_value (Number_toString (number_of_Z 1200)) = Some 1200
  /\ literal_value (Number_toString (number_of_Z 800)) = Some 800.
Proof.
  split; [reflexivity|].
  destruct (plotly_size_literals chart_plotly dataset_T initialCustomization eq_refl)
    as (I & Dw & Dh & W & Hh).
  split; [exact I|].
  split; [apply Dw; reflexivity|].
  split; [apply Dh; reflexivity|].
  split; [apply W | apply Hh]; reflexivity.
Defined.

(* ================================================================== *)
(** ** The generator: what it reads of the customization *)
(* ================================================================== *)

(** The sliders change [customWidth] and [customHeight] and nothing
    else. *)
Lemma sliders_keep_the_rest (w h : Z) (cu : Customization.t) :
  let cu' := onCustomHeightChange h (onCustomWidthChange w cu) in
  Customization.colors cu' = Customization.colors cu
  /\ Customization.theme cu' = Customization.theme cu
  /\ Customization.size cu' = Customization.size cu
  /\ Customization.customWidth cu' = w
  /\ Customization.customHeight cu' = h.
Proof. destruct cu. repeat split. Qed.

(** C4.  Two customization records that agree on [colors], [theme] and
    [size], and so differ at most in [customWidth] and [customHeight],
    give the same script, for every chart and dataset. *)
Theorem generate_ignores_custom_dimensions
    (ct : ChartDescriptor.t) (ds : Dataset.t) (cu1 cu2 : Customization.t) :
  Customization.colors cu1 = Customization.colors cu2 ->
  Customization.theme cu1 = Customization.theme cu2 ->
  Customization.size cu1 = Customization.size cu2 ->
  generateMockPythonCode ct ds cu1 = generateMockPythonCode ct ds cu2.
Proof.
  intros Hc Ht Hs. unfold generateMockPythonCode. now rewrite Hc, Ht, Hs.
Qed.

(** With the custom size selected, moving both sliders leaves the
    script as it was. *)
Lemma generate_ignores_custom_dimensions_witness :
  Size.value (Customization.size customization_custom) = "custom"
  /\ Customization.customWidth
       (onCustomHeightChange 300 (onCustomWidthChange 2000 customization_custom))
     <> Customization.customWidth customization_custom
  /\ Customization.customHeight
       (onCustomHeightChange 300 (onCustomWidthChange 2000 customization_custom))
     <> Customization.customHeight customization_custom
  /\ generateMockPythonCode chart_plotly dataset_T customization_custom
     = generateMockPythonCode chart_plotly dataset_T
         (onCustomHeightChange 300 (onCustomWidthChange 2000 customization_custom)).
Proof.
  split; [reflexivity|].
  split; [vm_compute; intros E; discriminate E|].
  split; [vm_compute; intros E; discriminate E|].
  apply (generate_ignores_custom_dimensions chart_plotly dataset_T); reflexivity.
Defined.

(* ================================================================== *)
(** ** The generator: the default case *)
(* ================================================================== *)

(** C7.  The generator is a total function; for a chart id that is not
    one of the four cases of the [switch] it returns the common
    preamble followed by the default body. *)
Theorem generate_unrecognized_id
    (ct : ChartDescriptor.t) (ds : Dataset.t) (cu : Customization.t) :
  ~ In (ChartDescriptor.id ct) recognized_ids ->
  generateMockPythonCode ct ds cu = common_preamble ds cu ++ default_body ds.
Proof.
  intros H.
  destruct (generate_split ct ds cu) as (body & E & D).
  rewrite E. f_equal. apply D.
  intros id Hid. apply String.eqb_neq. intros Eid.
  apply H. rewrite Eid. exact Hid.
Qed.

Lemma generate_unrecognized_id_witness :
  ~ In (ChartDescriptor.id chart_nonexistent) recognized_ids
  /\ generateMockPythonCode chart_nonexistent dataset_T initialCustomization
     = common_preamble dataset_T initialCustomization ++ default_body dataset_T.
Proof.
  assert (N : ~ In (ChartDescriptor.id chart_nonexistent) recognized_ids).
  { simpl. intros [E|[E|[E|[E|[]]]]]; discriminate E. }
  split; [exact N | apply (generate_unrecognized_id chart_nonexistent), N].
Defined.

(** C9.  The catalog entries [matplotlib_scatter] and [seaborn_violin]
    have no case in the [switch]: for them the script is the common
    preamble followed by the default body, which reads nothing of the
    customization. *)
Theorem catalog_scatter_violin_default
    (ct : ChartDescriptor.t) (ds : Dataset.t) (cu : Customization.t) :
  In ct mockChartTypes ->
  ChartDescriptor.id ct = "matplotlib_scatter"
  \/ ChartDescriptor.id ct = "seaborn_violin" ->
  generateMockPythonCode ct ds cu = common_preamble ds cu ++ default_body ds.
Proof.
  intros _ H. apply generate_default.
  simpl. intros [E|[E|[E|[E|[]]]]];
    destruct H as [H|H]; rewrite H in E; discriminate E.
Qed.

Lemma catalog_scatter_violin_default_witness :
  (In chart_scatter mockChartTypes
   /\ ChartDescriptor.id chart_scatter = "matplotlib_scatter"
   /\ generateMockPythonCode chart_scatter dataset_T initialCustomization
      = common_preamble dataset_T initialCustomization ++ default_body dataset_T)
  /\ (In chart_violin mockChartTypes
      /\ ChartDescriptor.id chart_violin = "seaborn_violin"
      /\ generateMockPythonCode chart_violin dataset_T initialCustomization
         = common_preamble dataset_T initialCustomization ++ default_body dataset_T).
Proof.
  split; (split; [simpl; tauto|]); (split; [reflexivity|]).
  - apply (catalog_scatter_violin_default chart_scatter); [simpl; tauto | now left].
  - apply (catalog_scatter_violin_default chart_violin); [simpl; tauto | now right].
Defined.

(* ================================================================== *)
(** ** The validator *)
(* ================================================================== *)

Lemma assoc_set_field_same (fields : list (string * jsval)) (k : string) (v : jsval) :
  assoc k (set_field fields k v) = Some v.
Proof.
  induction fields as [|[k' v'] rest IH]; simpl.
  - now rewrite String.eqb_refl.
  - destruct (String.eqb_spec k' k) as [->|ne]; simpl.
    + now rewrite String.eqb_refl.
    + destruct (String.eqb_spec k' k); [contradiction | exact IH].
Qed.

Lemma assoc_set_field_other (fields : list (string * jsval)) (k k' : string) (v : jsval) :
  k' <> k -> assoc k' (set_field fields k v) = assoc k' fields.
Proof.
  intros ne. induction fields as [|[k0 v0] rest IH]; simpl.
  - destruct (String.eqb_spec k k'); [now subst | reflexivity].
  - destruct (String.eqb_spec k0 k) as [->|ne0]; simpl.
    + destruct (String.eqb_spec k k'); [now subst | reflexivity].
    + now rewrite IH.
Qed.

Section ValidatorFacts.

Variable JSON_parse : string -> js jsval.

(** Case analysis on the conditions that the validator tests. *)
Ltac run_checks :=
  cbn;
  repeat (match goal with
          | |- context [if ?b then _ else _] => destruct b
          end; cbn).

(** Text that does not parse is rejected with the parser's message. *)
Lemma validate_unparsable (s message : string) :
  JSON_parse s = inl message ->
  validateAndParseJson JSON_parse s = mkResult false None (Some message).
Proof.
  intros H. unfold validateAndParseJson, validateAndParseJson_try.
  now rewrite H.
Qed.

(** A parsed object whose [rows] and [cols] are non-empty arrays passes
    every check. *)
Lemma validate_try_accepts (s : string) (fields : list (string * jsval))
    (r : jsval) (rs : list jsval) (c : jsval) (cs : list jsval) :
  JSON_parse s = inr (JObj fields) ->
  assoc "rows" fields = Some (JArr (r :: rs)) ->
  assoc "cols" fields = Some (JArr (c :: cs)) ->
  validateAndParseJson_try JSON_parse s
  = inr (mkResult true (Some (JObj fields)) None).
Proof.
  intros HP Hr Hc. unfold validateAndParseJson_try. rewrite HP.
  cbn. rewrite Hr, Hc. reflexivity.
Qed.

(** Nothing else does. *)
Lemma validate_try_inv (s : string) (res : ValidationResult) :
  validateAndParseJson_try JSON_parse s = inr res ->
  exists fields r rs c cs,
    JSON_parse s = inr (JObj fields)
    /\ assoc "rows" fields = Some (JArr (r :: rs))
    /\ assoc "cols" fields = Some (JArr (c :: cs))
    /\ res = mkResult true (Some (JObj fields)) None.
Proof.
  unfold validateAndParseJson_try.
  destruct (JSON_parse s) as [m|parsed]; [discriminate|].
  destruct parsed as [ | | | | |items|fields]; cbn; try discriminate.
  destruct (assoc "rows" fields) as [[ | |b|n|str|[|r rs]|o]|] eqn:Er;
    destruct (assoc "cols" fields) as [[ | |b'|n'|str'|[|c cs]|o']|] eqn:Ec;
    run_checks; try discriminate.
  intros [= <-]. now exists fields, r, rs, c, cs.
Qed.

Lemma validate_valid_inv (s : string) :
  isValid (validateAndParseJson JSON_parse s) = true ->
  exists fields r rs c cs,
    JSON_parse s = inr (JObj fields)
    /\ assoc "rows" fields = Some (JArr (r :: rs))
    /\ assoc "cols" fields = Some (JArr (c :: cs))
    /\ validateAndParseJson JSON_parse s
       = mkResult true (Some (JObj fields)) None.
Proof.
  unfold validateAndParseJson.
  destruct (validateAndParseJson_try JSON_parse s) as [m|res] eqn:E;
    cbn; [discriminate|].
  intros _. destruct (validate_try_inv s res E) as (f & r & rs & c & cs & H).
  exists f, r, rs, c, cs. intuition congruence.
Qed.

(** The normalized dataset of a parsed object. *)
Lemma normalizeDataset_object (fields : list (string * jsval)) :
  normalizeDataset (JObj fields)
  = inr (JObj (set_field fields "name"
                 (js_or (match assoc "name" fields with
                         | Some x => x
                         | None => JUndefined
                         end) (JStr "Custom Dataset")))).
Proof. reflexivity. Qed.

(** C5.  A parsed object whose [rows] and [cols] are non-empty arrays,
    of equal length or not, is accepted; the data returned is the
    parsed object, and the normalized dataset has the same [rows] and
    [cols]. *)
Theorem validate_accepts_nonempty_arrays
    (s : string) (fields : list (string * jsval)) (rows cols : list jsval) :
  JSON_parse s = inr (JObj fields) ->
  own_field (JObj fields) "rows" = Some (JArr rows) -> rows <> [] ->
  own_field (JObj fields) "cols" = Some (JArr cols) -> cols <> [] ->
  validateAndParseJson JSON_parse s = mkResult true (Some (JObj fields)) None
  /\ exists dataset,
       normalizeDataset (JObj fields) = inr dataset
       /\ own_field dataset "rows" = Some (JArr rows)
       /\ own_field dataset "cols" = Some (JArr cols).
Proof.
  cbn [own_field]. intros HP Hr Nr Hc Nc.
  destruct rows as [|r rs]; [contradiction|].
  destruct cols as [|c cs]; [contradiction|].
  split.
  - unfold validateAndParseJson.
    now rewrite (validate_try_accepts s fields r rs c cs HP Hr Hc).
  - rewrite normalizeDataset_object. eexists. split; [reflexivity|].
    cbn [own_field]. rewrite !assoc_set_field_other by discriminate. auto.
Qed.

(** C6.  Text that does not parse, and parsed input in which [rows] or
    [cols] is missing, is not an array or is empty, is rejected with a
    reason and no data; [handleJsonChange] then hands no dataset on. *)
Theorem validate_rejects (s : string) :
  Rejected JSON_parse s ->
  exists reason,
    validateAndParseJson JSON_parse s = mkResult false None (Some reason)
    /\ (forall message, JSON_parse s = inl message -> reason = message)
    /\ forall st, exists st', handleJsonChange JSON_parse s st = inr (st', None).
Proof.
  intros R.
  assert (F : exists reason, validateAndParseJson_try JSON_parse s = inl reason).
  { destruct (validateAndParseJson_try JSON_parse s) as [m|res] eqn:E;
      [now exists m|].
    exfalso.
    destruct (validate_try_inv s res E) as (f & r & rs & c & cs & HP & Hr & Hc & _).
    destruct R as [m H | parsed k H K M | parsed k v H K M A | parsed k H K M];
      rewrite HP in H; try discriminate; injection H as <-;
      cbn [own_field] in M;
      destruct K as [<-|[<-|[]]]; rewrite ?Hr, ?Hc in M; try discriminate M;
      injection M as <-; discriminate A. }
  destruct F as [reason F]. exists reason.
  assert (V : validateAndParseJson JSON_parse s = mkResult false None (Some reason)).
  { unfold validateAndParseJson. now rewrite F. }
  split; [exact V|]. split.
  - intros message H. rewrite (validate_unparsable s message H) in V. congruence.
  - intros st. unfold handleJsonChange. rewrite V. cbn.
    destruct (trim_is_empty s); cbn; eauto.
Qed.

(** C10 (as amended).  On every successful validation the dataset
    handed to [onDataChange] has the [name] of the input when that is
    there and truthy, and ["Custom Dataset"] when it is missing or
    falsy; every other field is that of the input. *)
Theorem handleJsonChange_name (value : string) (st : DataInputState) :
  trim_is_empty value = false ->
  isValid (validateAndParseJson JSON_parse value) = true ->
  exists parsed dataset,
    JSON_parse value = inr parsed
    /\ handleJsonChange JSON_parse value st
       = inr (mkState value (selectedExample st) true, Some dataset)
    /\ own_field dataset "name"
       = Some (match own_field parsed "name" with
               | Some name => if truthy name then name else JStr "Custom Dataset"
               | None => JStr "Custom Dataset"
               end)
    /\ forall k, k <> "name" -> own_field dataset k = own_field parsed k.
Proof.
  intros T V.
  destruct (validate_valid_inv value V) as (f & r & rs & c & cs & HP & _ & _ & E).
  exists (JObj f).
  exists (JObj (set_field f "name"
                  (js_or (match assoc "name" f with
                          | Some x => x
                          | None => JUndefined
                          end) (JStr "Custom Dataset")))).
  split; [exact HP|]. split; [|split].
  - unfold handleJsonChange. rewrite T, E.
    cbn [negb isValid data jsonInput selectedExample].
    now rewrite normalizeDataset_object.
  - cbn [own_field]. rewrite assoc_set_field_same. unfold js_or.
    destruct (assoc "name" f) as [n|]; reflexivity.
  - intros k ne. cbn [own_field]. now apply assoc_set_field_other.
Qed.

End ValidatorFacts.

(* ================================================================== *)
(** ** The validator on the sample inputs *)
(* ================================================================== *)

Lemma validate_accepts_nonempty_arrays_witness :
  parse_only text_uneven parsed_uneven text_uneven = inr parsed_uneven
  /\ List.length [JStr "A"]
     <> List.length [JNum (number_of_Z 1); JNum (number_of_Z 2)]
  /\ validateAndParseJson (parse_only text_uneven parsed_uneven) text_uneven
     = mkResult true (Some parsed_uneven) None
  /\ exists dataset,
       normalizeDataset parsed_uneven = inr dataset
       /\ own_field dataset "rows" = Some (JArr [JStr "A"])
       /\ own_field dataset "cols"
          = Some (JArr [JNum (number_of_Z 1); JNum (number_of_Z 2)]).
Proof.
  split; [reflexivity|]. split; [intros E; discriminate E|].
  apply (validate_accepts_nonempty_arrays
           (parse_only text_uneven parsed_uneven) text_uneven
           [("rows", JArr [JStr "A"]);
            ("cols", JArr [JNum (number_of_Z 1); JNum (number_of_Z 2)])]
           [JStr "A"] [JNum (number_of_Z 1); JNum (number_of_Z 2)]);
    solve [reflexivity | intros E; discriminate E].
Defined.

Lemma validate_rejects_witness :
  Rejected (parse_only text_empty_rows parsed_empty_rows) text_empty_rows
  /\ exists reason,
       validateAndParseJson (parse_only text_empty_rows parsed_empty_rows)
         text_empty_rows
       = mkResult false None (Some reason)
       /\ (forall message,
             parse_only text_empty_rows parsed_empty_rows text_empty_rows
             = inl message -> reason = message)
       /\ forall st, exists st',
            handleJsonChange (parse_only text_empty_rows parsed_empty_rows)
              text_empty_rows st
            = inr (st', None).
Proof.
  assert (R : Rejected (parse_only text_empty_rows parsed_empty_rows)
                text_empty_rows).
  { apply (Rejected_empty _ _ parsed_empty_rows "rows");
      [reflexivity | simpl; tauto | reflexivity]. }
  split; [exact R|].
  exact (validate_rejects (parse_only text_empty_rows parsed_empty_rows)
           text_empty_rows R).
Defined.

Lemma handleJsonChange_name_witness :
  trim_is_empty text_named = false
  /\ isValid (validateAndParseJson (parse_only text_named parsed_named) text_named)
     = true
  /\ exists parsed dataset,
       parse_only text_named parsed_named text_named = inr parsed
       /\ handleJsonChange (parse_only text_named parsed_named) text_named state0
          = inr (mkState text_named (selectedExample state0) true, Some dataset)
       /\ own_field dataset "name"
          = Some (match own_field parsed "name" with
                  | Some name => if truthy name then name else JStr "Custom Dataset"
                  | None => JStr "Custom Dataset"
                  end)
       /\ forall k, k <> "name" -> own_field dataset k = own_field parsed k.
Proof.
  split; [reflexivity|]. split; [reflexivity|].
  apply (handleJsonChange_name (parse_only text_named parsed_named) text_named state0);
    reflexivity.
Defined.

(** C10, as stated, fails: in [{"name":"","rows":["A"],"cols":[1]}] the
    name field is there; the input is valid, and the dataset handed on
    is named ["Custom Dataset"], not [""]. *)
Lemma empty_name_is_replaced :
  own_field parsed_empty_name "name" = Some (JStr "")
  /\ validateAndParseJson (parse_only text_empty_name parsed_empty_name)
       text_empty_name
     = mkResult true (Some parsed_empty_name) None
  /\ handleJsonChange (parse_only text_empty_name parsed_empty_name)
       text_empty_name state0
     = inr (mkState text_empty_name "" true,
            Some (JObj [("name", JStr "Custom Dataset");
                        ("rows", JArr [JStr "A"]);
                        ("cols", JArr [JNum (number_of_Z 1)])])).
Proof. repeat split. Qed.

(* ================================================================== *)
(** ** The generator: what each case reads *)
(* ================================================================== *)

(** X1.  Of the chart descriptor the generator reads the id only: two
    descriptors with the same id give the same script. *)
Theorem generate_reads_id_only
    (ct1 ct2 : ChartDescriptor.t) (ds : Dataset.t) (cu : Customization.t) :
  ChartDescriptor.id ct1 = ChartDescriptor.id ct2 ->
  generateMockPythonCode ct1 ds cu = generateMockPythonCode ct2 ds cu.
Proof.
  intros H. unfold generateMockPythonCode. cbv zeta. now rewrite H.
Qed.

Lemma generate_reads_id_only_witness :
  chart_line <> ChartDescriptor.mk "matplotlib_line" "" "" "" "" ""
  /\ generateMockPythonCode chart_line dataset_T initialCustomization
     = generateMockPythonCode (ChartDescriptor.mk "matplotlib_line" "" "" "" "" "")
         dataset_T initialCustomization.
Proof.
  split; [intros E; discriminate E|].
  apply (generate_reads_id_only chart_line); reflexivity.
Defined.

(** X2.  Of the dataset the generator reads the name, the rows, the
    cols and the values, and the values only when there is at least
    one: an empty [values] array counts as none, and the description is
    never read. *)
Theorem generate_empty_values_as_absent
    (ct : ChartDescriptor.t) (cu : Customization.t) (ds1 ds2 : Dataset.t) :
  Dataset.name ds1 = Dataset.name ds2 ->
  Dataset.rows ds1 = Dataset.rows ds2 ->
  Dataset.cols ds1 = Dataset.cols ds2 ->
  (if has_values (Dataset.values ds1) then Dataset.values ds1 else None)
  = (if has_values (Dataset.values ds2) then Dataset.values ds2 else None) ->
  generateMockPythonCode ct ds1 cu = generateMockPythonCode ct ds2 cu.
Proof.
  destruct ds1 as [n1 r1 c1 v1 d1], ds2 as [n2 r2 c2 v2 d2].
  cbn [Dataset.name Dataset.rows Dataset.cols Dataset.values].
  intros -> -> -> H.
  assert (E : has_values v1 = has_values v2
              /\ (has_values v1 = true -> v1 = v2)).
  { destruct v1 as [[|x1 l1]|], v2 as [[|x2 l2]|]; cbn in *;
      try discriminate H; split; try reflexivity; try discriminate;
      intros _; exact H. }
  destruct E as [E1 E2].
  unfold generateMockPythonCode. cbv zeta.
  cbn [Dataset.name Dataset.rows Dataset.cols Dataset.values].
  rewrite <- E1. destruct (has_values v1) eqn:V; [|reflexivity].
  now rewrite <- (E2 eq_refl).
Qed.

Lemma generate_empty_values_as_absent_witness :
  Dataset.mk "T" ["A"; "B"] [number_of_Z 1; number_of_Z 2] (Some []) (Some "none")
  <> dataset_T
  /\ generateMockPythonCode chart_bar
       (Dataset.mk "T" ["A"; "B"] [number_of_Z 1; number_of_Z 2] (Some [])
          (Some "none"))
       initialCustomization
     = generateMockPythonCode chart_bar dataset_T initialCustomization.
Proof.
  split; [intros E; discriminate E|].
  apply (generate_empty_values_as_absent chart_bar initialCustomization
           (Dataset.mk "T" ["A"; "B"] [number_of_Z 1; number_of_Z 2] (Some [])
              (Some "none"))
           dataset_T);
    reflexivity.
Defined.

(** X3.  With a non-empty [values] array the script binds [values] after
    [cols] and adds the [weights] column to the data frame. *)
Theorem generate_values_lines
    (ct : ChartDescriptor.t) (ds : Dataset.t) (cu : Customization.t)
    (v : number) (vs : list number) :
  Dataset.values ds = Some (v :: vs) ->
  Includes
    (lines ["cols = " ++ JSON_stringify_numbers (Dataset.cols ds);
            "values = " ++ JSON_stringify_numbers (v :: vs);
            ""])
    (generateMockPythonCode ct ds cu)
  /\ Includes
       (lines ["    'values': cols,"; "    'weights': values"; "})"])
       (generateMockPythonCode ct ds cu).
Proof.
  intros H. destruct (generate_split ct ds cu) as (body & -> & _).
  unfold common_preamble. cbv zeta. rewrite H. cbn [has_values List.length Nat.ltb Nat.leb].
  generalize (JSON_stringify_strings (Dataset.rows ds)).
  generalize (JSON_stringify_numbers (Dataset.cols ds)).
  generalize (JSON_stringify_numbers (v :: vs)).
  generalize (if strict_eq_string (Customization.theme cu) "dark"
              then "dark_background" else "default").
  generalize (Number_toString (div100 (Size.width (Customization.size cu)))).
  generalize (Number_toString (div100 (Size.height (Customization.size cu)))).
  intros h w style values cols rows.
  split; apply Includes_app_l; flatten; search.
Qed.

Lemma generate_values_lines_witness :
  Dataset.values dataset_weighted = Some [mkNumber 5 1; mkNumber 25 2]
  /\ includes (lines ["cols = [1,2]"; "values = [0.5,0.25]"; ""])
       (generateMockPythonCode chart_line dataset_weighted initialCustomization)
     = true
  /\ Includes
       (lines ["    'values': cols,"; "    'weights': values"; "})"])
       (generateMockPythonCode chart_line dataset_weighted initialCustomization).
Proof.
  split; [reflexivity|].
  destruct (generate_values_lines chart_line dataset_weighted initialCustomization
              (mkNumber 5 1) [mkNumber 25 2] eq_refl) as [A B].
  split; [apply includes_Includes; exact A | exact B].
Defined.

(** X4.  Only the bar chart, the heatmap and the interactive chart read
    the palette: for every other id, the line chart among them, the
    script is the same whatever the palette. *)
Theorem generate_palette_unused
    (ct : ChartDescriptor.t) (ds : Dataset.t) (cu : Customization.t)
    (palette : ColorScheme.t) :
  ~ In (ChartDescriptor.id ct)
       ["matplotlib_bar"; "seaborn_heatmap"; "plotly_interactive"] ->
  generateMockPythonCode ct ds (updateCustomization (Set_colors palette) cu)
  = generateMockPythonCode ct ds cu.
Proof.
  intros H. destruct cu as [colors theme size cw ch].
  unfold generateMockPythonCode. cbv zeta.
  cbn [updateCustomization Customization.colors Customization.theme Customization.size].
  destruct (String.eqb_spec (ChartDescriptor.id ct) "matplotlib_line");
    [reflexivity|].
  destruct (String.eqb_spec (ChartDescriptor.id ct) "matplotlib_bar") as [E|_];
    [exfalso; apply H; rewrite E; simpl; tauto|].
  destruct (String.eqb_spec (ChartDescriptor.id ct) "seaborn_heatmap") as [E|_];
    [exfalso; apply H; rewrite E; simpl; tauto|].
  destruct (String.eqb_spec (ChartDescriptor.id ct) "plotly_interactive") as [E|_];
    [exfalso; apply H; rewrite E; simpl; tauto|].
  reflexivity.
Qed.

Lemma generate_palette_unused_witness :
  ~ In (ChartDescriptor.id chart_line)
       ["matplotlib_bar"; "seaborn_heatmap"; "plotly_interactive"]
  /\ generateMockPythonCode chart_line dataset_T
       (updateCustomization (Set_colors (nth 4 mock_colors colors_default))
          initialCustomization)
     = generateMockPythonCode chart_line dataset_T initialCustomization.
Proof.
  assert (N : ~ In (ChartDescriptor.id chart_line)
                ["matplotlib_bar"; "seaborn_heatmap"; "plotly_interactive"]).
  { simpl. intros [E|[E|[E|[]]]]; discriminate E. }
  split; [exact N|].
  apply (generate_palette_unused chart_line dataset_T initialCustomization), N.
Defined.

(** X5.  The bars take the first color of the palette; with an empty
    palette the script says [color='undefined']. *)
Theorem bar_color (ct : ChartDescriptor.t) (ds : Dataset.t) (cu : Customization.t) :
  ChartDescriptor.id ct = "matplotlib_bar" ->
  (forall c rest,
     ColorScheme.colors (Customization.colors cu) = c :: rest ->
     Includes ("bars = plt.bar(rows, cols, color='" ++ c ++ "', alpha=0.8")
       (generateMockPythonCode ct ds cu))
  /\ (ColorScheme.colors (Customization.colors cu) = [] ->
      Includes "bars = plt.bar(rows, cols, color='undefined', alpha=0.8"
        (generateMockPythonCode ct ds cu)).
Proof.
  intros H.
  assert (G : Includes
                ("bars = plt.bar(rows, cols, color='"
                   ++ element_text (ColorScheme.colors (Customization.colors cu)) 0
                   ++ "', alpha=0.8")
                (generateMockPythonCode ct ds cu)).
  { unfold generateMockPythonCode. cbv zeta. rewrite H.
    cbn [String.eqb Ascii.eqb Bool.eqb].
    apply Includes_app_r.
    generalize (element_text (ColorScheme.colors (Customization.colors cu)) 0).
    generalize (Dataset.name ds). intros name color.
    flatten. search. }
  split.
  - intros c rest E. now rewrite E in G.
  - intros E. now rewrite E in G.
Qed.

Lemma bar_color_witness :
  ChartDescriptor.id chart_bar = "matplotlib_bar"
  /\ Includes "bars = plt.bar(rows, cols, color='#1f77b4', alpha=0.8"
       (generateMockPythonCode chart_bar dataset_T initialCustomization)
  /\ Includes "bars = plt.bar(rows, cols, color='undefined', alpha=0.8"
       (generateMockPythonCode chart_bar dataset_T
          (updateCustomization (Set_colors (ColorScheme.mk "None" "none" []))
             initialCustomization)).
Proof.
  split; [reflexivity|]. split.
  - apply (proj1 (bar_color chart_bar dataset_T initialCustomization eq_refl)
             "#1f77b4" ["#ff7f0e"; "#2ca02c"]).
    reflexivity.
  - apply (proj2 (bar_color chart_bar dataset_T
                    (updateCustomization (Set_colors (ColorScheme.mk "None" "none" []))
                       initialCustomization) eq_refl)).
    reflexivity.
Defined.

(** X6.  The heatmap names its color map after the palette's [value]
    and reads nothing else of the palette. *)
Theorem heatmap_cmap (ct : ChartDescriptor.t) (ds : Dataset.t) (cu : Customization.t) :
  ChartDescriptor.id ct = "seaborn_heatmap" ->
  Includes
    ("sns.heatmap(heatmap_data, annot=True, cmap='"
       ++ ColorScheme.value (Customization.colors cu) ++ "', " ++ nl)
    (generateMockPythonCode ct ds cu)
  /\ forall palette,
       ColorScheme.value palette = ColorScheme.value (Customization.colors cu) ->
       generateMockPythonCode ct ds (updateCustomization (Set_colors palette) cu)
       = generateMockPythonCode ct ds cu.
Proof.
  intros H. split.
  - unfold generateMockPythonCode. cbv zeta. rewrite H.
    cbn [String.eqb Ascii.eqb Bool.eqb].
    apply Includes_app_r.
    generalize (ColorScheme.value (Customization.colors cu)).
    generalize (Dataset.name ds). intros name value.
    flatten. search.
  - intros palette E. destruct cu as [colors theme size cw ch].
    unfold generateMockPythonCode. cbv zeta. rewrite H.
    cbn [String.eqb Ascii.eqb Bool.eqb updateCustomization
         Customization.colors Customization.theme Customization.size] in *.
    now rewrite E.
Qed.

Lemma heatmap_cmap_witness :
  ChartDescriptor.id chart_heatmap = "seaborn_heatmap"
  /\ Includes
       ("sns.heatmap(heatmap_data, annot=True, cmap='default', " ++ nl)
       (generateMockPythonCode chart_heatmap dataset_T initialCustomization)
  /\ generateMockPythonCode chart_heatmap dataset_T
       (updateCustomization (Set_colors (ColorScheme.mk "Mine" "default" ["red"]))
          initialCustomization)
     = generateMockPythonCode chart_heatmap dataset_T initialCustomization.
Proof.
  split; [reflexivity|].
  destruct (heatmap_cmap chart_heatmap dataset_T initialCustomization eq_refl)
    as [A B].
  split; [exact A | apply B; reflexivity].
Defined.

(** X7.  The interactive chart draws its line in the first color of the
    palette and its markers in the second; with a palette of one color
    the marker color is the text [undefined]. *)
Theorem plotly_trace_colors (ct : ChartDescriptor.t) (ds : Dataset.t) (cu : Customization.t) :
  ChartDescriptor.id ct = "plotly_interactive" ->
  Includes
    (lines ["    line=dict(width=3, color='"
              ++ element_text (ColorScheme.colors (Customization.colors cu)) 0 ++ "'),";
            "    marker=dict(size=10, color='"
              ++ element_text (ColorScheme.colors (Customization.colors cu)) 1 ++ "')";
            "))"])
    (generateMockPythonCode ct ds cu)
  /\ (forall c,
        ColorScheme.colors (Customization.colors cu) = [c] ->
        Includes
          (lines ["    line=dict(width=3, color='" ++ c ++ "'),";
                  "    marker=dict(size=10, color='undefined')"])
          (generateMockPythonCode ct ds cu)).
Proof.
  intros H.
  assert (K : forall c0 c1,
             element_text (ColorScheme.colors (Customization.colors cu)) 0 = c0 ->
             element_text (ColorScheme.colors (Customization.colors cu)) 1 = c1 ->
             Includes
               (lines ["    line=dict(width=3, color='" ++ c0 ++ "'),";
                       "    marker=dict(size=10, color='" ++ c1 ++ "')";
                       "))"])
               (generateMockPythonCode ct ds cu)).
  { intros c0 c1 E0 E1.
    unfold generateMockPythonCode. cbv zeta. rewrite H, E0, E1.
    cbn [String.eqb Ascii.eqb Bool.eqb].
    apply Includes_app_r.
    generalize (Number_toString (number_of_Z (Size.width (Customization.size cu)))).
    generalize (Number_toString (number_of_Z (Size.height (Customization.size cu)))).
    generalize (if strict_eq_string (Customization.theme cu) "dark"
                then "plotly_dark" else "plotly_white").
    generalize (Dataset.name ds). intros name template height width.
    flatten. search. }
  split.
  - now apply K.
  - intros c E.
    destruct (K c "undefined") as (a & b & Eq); [now rewrite E | now rewrite E |].
    exists a, (nl ++ "))" ++ b). rewrite Eq.
    cbn [lines String.concat]. now rewrite !append_assoc_s.
Qed.

Lemma plotly_trace_colors_witness :
  ChartDescriptor.id chart_plotly = "plotly_interactive"
  /\ Includes
       (lines ["    line=dict(width=3, color='#1f77b4'),";
               "    marker=dict(size=10, color='#ff7f0e')";
               "))"])
       (generateMockPythonCode chart_plotly dataset_T initialCustomization)
  /\ Includes
       (lines ["    line=dict(width=3, color='red'),";
               "    marker=dict(size=10, color='undefined')"])
       (generateMockPythonCode chart_plotly dataset_T
          (updateCustomization (Set_colors (ColorScheme.mk "One" "one" ["red"]))
             initialCustomization)).
Proof.
  split; [reflexivity|]. split.
  - exact (proj1 (plotly_trace_colors chart_plotly dataset_T initialCustomization
                    eq_refl)).
  - apply (proj2 (plotly_trace_colors chart_plotly dataset_T
                    (updateCustomization (Set_colors (ColorScheme.mk "One" "one" ["red"]))
                       initialCustomization) eq_refl) "red").
    reflexivity.
Defined.

(** X8.  Whatever the chart, the script carries the name of the dataset
    between single quotes, as it is: nothing in it is escaped. *)
Theorem generate_embeds_name
    (ct : ChartDescriptor.t) (ds : Dataset.t) (cu : Customization.t) :
  Includes ("'" ++ Dataset.name ds ++ "'") (generateMockPythonCode ct ds cu).
Proof.
  unfold generateMockPythonCode. cbv zeta.
  generalize (element_text (ColorScheme.colors (Customization.colors cu)) 0).
  generalize (element_text (ColorScheme.colors (Customization.colors cu)) 1).
  generalize (ColorScheme.value (Customization.colors cu)).
  generalize (Number_toString (number_of_Z (Size.width (Customization.size cu)))).
  generalize (Number_toString (number_of_Z (Size.height (Customization.size cu)))).
  generalize (if strict_eq_string (Customization.theme cu) "dark"
              then "plotly_dark" else "plotly_white").
  generalize (Dataset.name ds). intros name template height width value c1 c0.
  repeat match goal with
         | |- context [if (ChartDescriptor.id ct =? ?s)%string then _ else _] =>
             destruct (ChartDescriptor.id ct =? s)%string
         end;
    apply Includes_app_r; flatten; search.
Qed.

(* ================================================================== *)
(** ** The validator: which inputs pass, and which message the others get *)
(* ================================================================== *)

Lemma set_field_twice (fields : list (string * jsval)) (k : string) (v w : jsval) :
  set_field (set_field fields k v) k w = set_field fields k w.
Proof.
  induction fields as [|[k' v'] rest IH]; simpl.
  - now rewrite String.eqb_refl.
  - destruct (String.eqb_spec k' k) as [->|ne]; simpl.
    + now rewrite String.eqb_refl.
    + destruct (String.eqb_spec k' k); [contradiction | now rewrite IH].
Qed.

Lemma js_or_truthy (a : jsval) : truthy (js_or a (JStr "Custom Dataset")) = true.
Proof. unfold js_or. destruct (truthy a) eqn:E; [exact E | reflexivity]. Qed.

Section ValidatorCases.

Variable JSON_parse : string -> js jsval.

(** Run the checks of the validator on a parsed value whose [rows] and
    [cols] have been split into cases. *)
Ltac check_cases :=
  cbn;
  repeat (match goal with
          | |- context [if negb ?b then _ else _] => destruct b
          | |- context [if ?b then _ else _] => destruct b
          end; cbn);
  try reflexivity;
  try (intros; discriminate);
  try (intros;
       repeat match goal with
              | H : _ \/ _ |- _ => destruct H
              end;
       discriminate).

(** X9.  The validator accepts exactly the parsed objects whose [rows]
    and [cols] are both arrays with at least one element. *)
Theorem validate_valid_iff (s : string) :
  isValid (validateAndParseJson JSON_parse s) = true
  <-> exists fields r rs c cs,
        JSON_parse s = inr (JObj fields)
        /\ own_field (JObj fields) "rows" = Some (JArr (r :: rs))
        /\ own_field (JObj fields) "cols" = Some (JArr (c :: cs)).
Proof.
  split.
  - intros V.
    destruct (validate_valid_inv JSON_parse s V) as (f & r & rs & c & cs & H).
    exists f, r, rs, c, cs. tauto.
  - intros (f & r & rs & c & cs & HP & Hr & Hc). cbn [own_field] in Hr, Hc.
    unfold validateAndParseJson.
    now rewrite (validate_try_accepts JSON_parse s f r rs c cs HP Hr Hc).
Qed.

(** X10.  When [rows] or [cols] is missing or falsy ([null], [0], [""],
    [false]) the reason given is that both must be there, whatever the
    other one is; this holds for every parsed value but [null]. *)
Theorem validate_reason_missing (s : string) (parsed : jsval) :
  JSON_parse s = inr parsed ->
  parsed <> JNull -> parsed <> JUndefined ->
  truthy (read parsed "rows") = false \/ truthy (read parsed "cols") = false ->
  validateAndParseJson JSON_parse s = mkResult false None (Some msg_missing).
Proof.
  intros HP N U. unfold validateAndParseJson, validateAndParseJson_try, read.
  rewrite HP.
  destruct parsed as [ | |b|n|str|items|fields]; try contradiction;
    try (intros _; reflexivity).
  cbn.
  destruct (assoc "rows" fields) as [[ | |b|n|str|[|r rs]|o]|];
    destruct (assoc "cols" fields) as [[ | |b'|n'|str'|[|c cs]|o']|];
    check_cases.
Qed.

(** X11.  When both are there and truthy and one of them is not an
    array, the reason given is that both must be arrays. *)
Theorem validate_reason_not_arrays (s : string) (parsed : jsval) :
  JSON_parse s = inr parsed ->
  truthy (read parsed "rows") = true -> truthy (read parsed "cols") = true ->
  Array_isArray (read parsed "rows") = false
  \/ Array_isArray (read parsed "cols") = false ->
  validateAndParseJson JSON_parse s = mkResult false None (Some msg_not_arrays).
Proof.
  intros HP. unfold validateAndParseJson, validateAndParseJson_try, read.
  rewrite HP.
  destruct parsed as [ | |b|n|str|items|fields]; try (cbn; intros; discriminate).
  cbn.
  destruct (assoc "rows" fields) as [[ | |b|n|str|[|r rs]|o]|];
    destruct (assoc "cols" fields) as [[ | |b'|n'|str'|[|c cs]|o']|];
    check_cases.
Qed.

(** X12.  When both are arrays and one of them is empty, the reason
    given is that arrays cannot be empty. *)
Theorem validate_reason_empty (s : string) (parsed : jsval) (rows cols : list jsval) :
  JSON_parse s = inr parsed ->
  read parsed "rows" = JArr rows -> read parsed "cols" = JArr cols ->
  rows = [] \/ cols = [] ->
  validateAndParseJson JSON_parse s = mkResult false None (Some msg_empty).
Proof.
  intros HP. unfold validateAndParseJson, validateAndParseJson_try, read.
  rewrite HP.
  destruct parsed as [ | |b|n|str|items|fields]; try (cbn; intros; discriminate).
  cbn.
  destruct (assoc "rows" fields) as [[ | |b|n|str|rows'|o]|];
    destruct (assoc "cols" fields) as [[ | |b'|n'|str'|cols'|o']|];
    try (intros; discriminate).
  intros [= ->] [= ->] [->| ->]; [|destruct rows]; reflexivity.
Qed.

(** X13.  [handleJsonChange] never throws: the normalization is reached
    with a parsed object only. *)
Theorem handleJsonChange_returns (value : string) (st : DataInputState) :
  exists st' out, handleJsonChange JSON_parse value st = inr (st', out).
Proof.
  unfold handleJsonChange. cbv zeta.
  destruct (trim_is_empty value); cbn [negb]; [cbn; eauto|].
  destruct (isValid (validateAndParseJson JSON_parse value)) eqn:V.
  - destruct (validate_valid_inv JSON_parse value V)
      as (f & r & rs & c & cs & _ & _ & _ & E).
    rewrite E. cbn [data isValid]. rewrite normalizeDataset_object. cbn. eauto.
  - cbn. eauto.
Qed.

(** X14.  On text that is white space throughout, [handleJsonChange]
    stores the text and does nothing else: the validator is not run,
    the validity flag keeps its former value and no dataset is handed
    on. *)
Theorem handleJsonChange_blank (value : string) (st : DataInputState) :
  trim_is_empty value = true ->
  handleJsonChange JSON_parse value st
  = inr (mkState value (selectedExample st) (isValidJson st), None).
Proof. intros H. unfold handleJsonChange. now rewrite H. Qed.

(** X15.  On any other text the validity flag becomes the outcome of
    the validation, and a dataset is handed on exactly when the text is
    valid. *)
Theorem handleJsonChange_flag (value : string) (st : DataInputState) :
  trim_is_empty value = false ->
  exists out,
    handleJsonChange JSON_parse value st
    = inr (mkState value (selectedExample st)
             (isValid (validateAndParseJson JSON_parse value)), out)
    /\ (out <> None <-> isValid (validateAndParseJson JSON_parse value) = true).
Proof.
  intros T. unfold handleJsonChange. cbv zeta. rewrite T. cbn [negb].
  destruct (isValid (validateAndParseJson JSON_parse value)) eqn:V.
  - destruct (validate_valid_inv JSON_parse value V)
      as (f & r & rs & c & cs & _ & _ & _ & E).
    rewrite E. cbn [data isValid]. rewrite normalizeDataset_object. cbn.
    eexists. split; [reflexivity|]. split; [reflexivity | intros _ D; discriminate D].
  - cbn. exists None. split; [reflexivity|].
    split; [intros D; now elim D | intros D; discriminate D].
Qed.

(** X16.  Every dataset that [handleJsonChange] hands on is an object
    with a truthy [name] whose [rows] and [cols] are non-empty arrays. *)
Theorem handleJsonChange_dataset_shape
    (value : string) (st st' : DataInputState) (dataset : jsval) :
  handleJsonChange JSON_parse value st = inr (st', Some dataset) ->
  exists fields r rs c cs,
    dataset = JObj fields
    /\ truthy (read dataset "name") = true
    /\ read dataset "rows" = JArr (r :: rs)
    /\ read dataset "cols" = JArr (c :: cs).
Proof.
  unfold handleJsonChange. cbv zeta.
  destruct (trim_is_empty value); cbn [negb]; [cbn; intros D; discriminate D|].
  destruct (isValid (validateAndParseJson JSON_parse value)) eqn:V;
    [|cbn; intros D; discriminate D].
  destruct (validate_valid_inv JSON_parse value V)
    as (f & r & rs & c & cs & _ & Hr & Hc & E).
  rewrite E. cbn [data isValid]. rewrite normalizeDataset_object. cbn.
  intros [= _ <-].
  eexists; exists r, rs, c, cs. split; [reflexivity|].
  unfold read. cbn [own_field].
  rewrite assoc_set_field_same, !assoc_set_field_other by discriminate.
  rewrite Hr, Hc. split; [apply js_or_truthy | split; reflexivity].
Qed.

End ValidatorCases.

(** X17.  Normalizing a parsed object twice is the same as normalizing
    it once. *)
Theorem normalizeDataset_idempotent (fields : list (string * jsval)) (d : jsval) :
  normalizeDataset (JObj fields) = inr d -> normalizeDataset d = inr d.
Proof.
  rewrite normalizeDataset_object. intros [= <-].
  rewrite normalizeDataset_object, assoc_set_field_same, set_field_twice.
  unfold js_or at 1. now rewrite js_or_truthy.
Qed.

Lemma validate_reason_missing_witness :
  parse_only text_rows_only parsed_rows_only text_rows_only = inr parsed_rows_only
  /\ truthy (read parsed_rows_only "cols") = false
  /\ validateAndParseJson (parse_only text_rows_only parsed_rows_only) text_rows_only
     = mkResult false None (Some msg_missing).
Proof.
  split; [reflexivity|]. split; [reflexivity|].
  apply (validate_reason_missing (parse_only text_rows_only parsed_rows_only)
           text_rows_only parsed_rows_only);
    solve [reflexivity | intros E; discriminate E | right; reflexivity].
Defined.

Lemma validate_reason_not_arrays_witness :
  parse_only text_cols_text parsed_cols_text text_cols_text = inr parsed_cols_text
  /\ Array_isArray (read parsed_cols_text "cols") = false
  /\ validateAndParseJson (parse_only text_cols_text parsed_cols_text) text_cols_text
     = mkResult false None (Some msg_not_arrays).
Proof.
  split; [reflexivity|]. split; [reflexivity|].
  apply (validate_reason_not_arrays (parse_only text_cols_text parsed_cols_text)
           text_cols_text parsed_cols_text);
    solve [reflexivity | right; reflexivity].
Defined.

Lemma validate_reason_empty_witness :
  parse_only text_empty_rows parsed_empty_rows text_empty_rows = inr parsed_empty_rows
  /\ read parsed_empty_rows "rows" = JArr []
  /\ validateAndParseJson (parse_only text_empty_rows parsed_empty_rows)
       text_empty_rows
     = mkResult false None (Some msg_empty).
Proof.
  split; [reflexivity|]. split; [reflexivity|].
  apply (validate_reason_empty (parse_only text_empty_rows parsed_empty_rows)
           text_empty_rows parsed_empty_rows [] [JNum (number_of_Z 1)]);
    solve [reflexivity | left; reflexivity].
Defined.

(** After a rejected edit, text of spaces and line feeds leaves the
    flag at [false]. *)
Lemma handleJsonChange_blank_witness :
  trim_is_empty ("  " ++ nl ++ " ") = true
  /\ handleJsonChange (parse_only text_named parsed_named) ("  " ++ nl ++ " ")
       (mkState "{" "" false)
     = inr (mkState ("  " ++ nl ++ " ") "" false, None).
Proof.
  split; [reflexivity|].
  apply (handleJsonChange_blank (parse_only text_named parsed_named)); reflexivity.
Defined.

Lemma handleJsonChange_flag_witness :
  trim_is_empty text_empty_rows = false
  /\ exists out,
       handleJsonChange (parse_only text_empty_rows parsed_empty_rows)
         text_empty_rows state0
       = inr (mkState text_empty_rows (selectedExample state0)
                (isValid (validateAndParseJson
                            (parse_only text_empty_rows parsed_empty_rows)
                            text_empty_rows)), out)
       /\ (out <> None
           <-> isValid (validateAndParseJson
                          (parse_only text_empty_rows parsed_empty_rows)
                          text_empty_rows) = true).
Proof.
  split; [reflexivity|].
  apply (handleJsonChange_flag (parse_only text_empty_rows parsed_empty_rows)
           text_empty_rows state0).
  reflexivity.
Defined.

Lemma handleJsonChange_dataset_shape_witness :
  handleJsonChange (parse_only text_empty_name parsed_empty_name)
    text_empty_name state0
  = inr (mkState text_empty_name "" true,
         Some (JObj [("name", JStr "Custom Dataset");
                     ("rows", JArr [JStr "A"]);
                     ("cols", JArr [JNum (number_of_Z 1)])]))
  /\ exists fields r rs c cs,
       JObj [("name", JStr "Custom Dataset");
             ("rows", JArr [JStr "A"]);
             ("cols", JArr [JNum (number_of_Z 1)])] = JObj fields
       /\ truthy (read (JObj [("name", JStr "Custom Dataset");
                              ("rows", JArr [JStr "A"]);
                              ("cols", JArr [JNum (number_of_Z 1)])]) "name") = true
       /\ read (JObj [("name", JStr "Custom Dataset");
                      ("rows", JArr [JStr "A"]);
                      ("cols", JArr [JNum (number_of_Z 1)])]) "rows" = JArr (r :: rs)
       /\ read (JObj [("name", JStr "Custom Dataset");
                      ("rows", JArr [JStr "A"]);
                      ("cols", JArr [JNum (number_of_Z 1)])]) "cols" = JArr (c :: cs).
Proof.
  split; [reflexivity|].
  apply (handleJsonChange_dataset_shape
           (parse_only text_empty_name parsed_empty_name)
           text_empty_name state0 (mkState text_empty_name "" true)).
  reflexivity.
Defined.

Lemma normalizeDataset_idempotent_witness :
  normalizeDataset parsed_empty_name
  = inr (JObj [("name", JStr "Custom Dataset");
               ("rows", JArr [JStr "A"]);
               ("cols", JArr [JNum (number_of_Z 1)])])
  /\ normalizeDataset (JObj [("name", JStr "Custom Dataset");
                             ("rows", JArr [JStr "A"]);
                             ("cols", JArr [JNum (number_of_Z 1)])])
     = inr (JObj [("name", JStr "Custom Dataset");
                  ("rows", JArr [JStr "A"]);
                  ("cols", JArr [JNum (number_of_Z 1)])]).
Proof.
  split; [reflexivity|].
  apply (normalizeDataset_idempotent
           [("name", JStr ""); ("rows", JArr [JStr "A"]);
            ("cols", JArr [JNum (number_of_Z 1)])]).
  reflexivity.
Defined.

(* ================================================================== *)
(** ** The customization state *)
(* ================================================================== *)

(** X18.  Storing twice under one key keeps the second value only. *)
Theorem updateCustomization_same_key
    (e1 e2 : CustomizationEntry) (cu : Customization.t) :
  entry_key e1 = entry_key e2 ->
  updateCustomization e2 (updateCustomization e1 cu) = updateCustomization e2 cu.
Proof.
  destruct cu, e1, e2; cbn; intros E; try discriminate E; reflexivity.
Qed.

Lemma updateCustomization_same_key_witness :
  entry_key (Set_customWidth 400) = entry_key (Set_customWidth 2000)
  /\ updateCustomization (Set_customWidth 2000)
       (updateCustomization (Set_customWidth 400) initialCustomization)
     = updateCustomization (Set_customWidth 2000) initialCustomization.
Proof.
  split; [reflexivity|].
  apply updateCustomization_same_key. reflexivity.
Defined.

(** X19.  Storing under two different keys gives the same state in
    either order. *)
Theorem updateCustomization_other_keys
    (e1 e2 : CustomizationEntry) (cu : Customization.t) :
  entry_key e1 <> entry_key e2 ->
  updateCustomization e1 (updateCustomization e2 cu)
  = updateCustomization e2 (updateCustomization e1 cu).
Proof.
  destruct cu, e1, e2; cbn; intros N; try (now elim N); reflexivity.
Qed.

Lemma updateCustomization_other_keys_witness :
  entry_key (Set_theme theme_dark) <> entry_key (Set_size size_custom)
  /\ updateCustomization (Set_theme theme_dark)
       (updateCustomization (Set_size size_custom) initialCustomization)
     = updateCustomization (Set_size size_custom)
         (updateCustomization (Set_theme theme_dark) initialCustomization).
Proof.
  assert (N : entry_key (Set_theme theme_dark) <> entry_key (Set_size size_custom)).
  { intros E; discriminate E. }
  split; [exact N|].
  exact (updateCustomization_other_keys
           (Set_theme theme_dark) (Set_size size_custom)
           initialCustomization N).
Defined.

(** X20.  The theme selector stores the catalog entry whose [value] is
    the one selected, and [undefined] when the catalog has no such
    entry; it changes nothing else of the state. *)
Theorem onThemeChange_stores_entry (value : string) (prev : Customization.t) :
  (forall t, In t mock_themes -> own_field t "value" = Some (JStr value) ->
             Customization.theme (onThemeChange value prev) = t)
  /\ ((forall t, In t mock_themes -> own_field t "value" <> Some (JStr value)) ->
      Customization.theme (onThemeChange value prev) = JUndefined)
  /\ Customization.colors (onThemeChange value prev) = Customization.colors prev
  /\ Customization.size (onThemeChange value prev) = Customization.size prev
  /\ Customization.customWidth (onThemeChange value prev)
     = Customization.customWidth prev
  /\ Customization.customHeight (onThemeChange value prev)
     = Customization.customHeight prev.
Proof.
  destruct prev as [colors theme size cw ch].
  unfold onThemeChange. cbn [updateCustomization Customization.theme
    Customization.colors Customization.size Customization.customWidth
    Customization.customHeight].
  split; [|split; [|repeat split]].
  - intros t. simpl. intros [<-|[<-|[<-|[<-|[]]]]]; cbn; intros [= <-]; reflexivity.
  - intros H.
    destruct (find _ mock_themes) as [t|] eqn:F; [|reflexivity].
    exfalso. apply find_some in F as [I V].
    apply (H t I).
    destruct (own_field t "value") as [v|]; [|discriminate V].
    destruct v; try discriminate V. cbn in V.
    apply String.eqb_eq in V. now subst.
Qed.

(** X21.  Every chart of the catalog is shown under exactly one of the
    three tabs, and a tab shows catalog charts of its own category
    only. *)
Theorem chartCategories_partition (chart : ChartDescriptor.t) :
  (In chart mockChartTypes ->
   exists tab charts,
     In (tab, charts) chartCategories /\ In chart charts
     /\ forall tab' charts',
          In (tab', charts') chartCategories -> In chart charts' -> tab' = tab)
  /\ (forall tab charts,
        In (tab, charts) chartCategories -> In chart charts ->
        In chart mockChartTypes /\ ChartDescriptor.category chart = tab).
Proof.
  assert (B : forall tab charts,
             In (tab, charts) chartCategories -> In chart charts ->
             In chart mockChartTypes /\ ChartDescriptor.category chart = tab).
  { intros tab charts. unfold chartCategories.
    intros [E|[E|[E|[]]]] I; apply pair_equal_spec in E as [<- <-];
      unfold charts_in_category in I;
      apply filter_In in I as [I E]; apply String.eqb_eq in E; tauto. }
  split; [|exact B].
  intros I.
  assert (C : In (ChartDescriptor.category chart)
                ["basic"; "statistical"; "interactive"]).
  { simpl in I.
    destruct I as [<-|[<-|[<-|[<-|[<-|[<-|[]]]]]]]; simpl; tauto. }
  exists (ChartDescriptor.category chart),
         (charts_in_category (ChartDescriptor.category chart) mockChartTypes).
  split; [|split].
  - unfold chartCategories.
    destruct C as [<-|[<-|[<-|[]]]]; simpl; tauto.
  - apply filter_In. split; [exact I | apply String.eqb_refl].
  - intros tab' charts' T I'. symmetry. exact (proj2 (B tab' charts' T I')).
Qed.

(* ================================================================== *)
(** ** The platform: data, chart builder and preview together *)
(* ================================================================== *)

Lemma step_settled (p : Platform) (e : Event) : settled p -> settled (step p e).
Proof.
  destruct p as [[dataset visualization] [selectedChart customization]].
  unfold settled, step, run_effect, ChartBuilder.effect.
  destruct e as [[d|]|chart|entry], selectedChart as [c|], dataset as [d0|];
    cbn; intros H; try reflexivity; try exact H.
Qed.

Lemma run_settled (events : list Event) : settled (run events).
Proof.
  unfold run.
  assert (G : forall p, settled p -> settled (fold_left step events p)).
  { induction events as [|e events IH]; intros p H; [exact H|].
    cbn [fold_left]. apply IH, step_settled, H. }
  apply G. reflexivity.
Qed.

Lemma generate_not_empty (ct : ChartDescriptor.t) (ds : Dataset.t) (cu : Customization.t) :
  generateMockPythonCode ct ds cu <> "".
Proof.
  destruct (generate_split ct ds cu) as (body & -> & _).
  unfold common_preamble. cbv zeta. cbn [lines String.concat append].
  discriminate.
Qed.

(** X22.  After any sequence of data changes, chart selections and
    customizations, a visualization held by the app is that of the
    current dataset, chart and customization, with the script the
    generator gives for them; and there is none exactly when the
    dataset or the chart selection is missing. *)
Theorem platform_in_sync (events : list Event) :
  match App.visualization (app (run events)) with
  | Some v =>
      App.dataset (app (run events)) = Some (GeneratedVisualization.dataset v)
      /\ ChartBuilder.selectedChart (builder (run events))
         = Some (GeneratedVisualization.chartType v)
      /\ ChartBuilder.customization (builder (run events))
         = GeneratedVisualization.customization v
      /\ GeneratedVisualization.pythonCode v
         = generateMockPythonCode (GeneratedVisualization.chartType v)
             (GeneratedVisualization.dataset v)
             (GeneratedVisualization.customization v)
  | None =>
      App.dataset (app (run events)) = None
      \/ ChartBuilder.selectedChart (builder (run events)) = None
  end.
Proof.
  pose proof (run_settled events) as S. unfold settled in S. rewrite S.
  unfold ChartBuilder.effect.
  destruct (ChartBuilder.selectedChart (builder (run events))) as [c|];
    destruct (App.dataset (app (run events))) as [d|]; cbn; auto.
Qed.

(** X23.  Clearing the data drops the visualization and keeps the chart
    selection and the customization; the next dataset is then drawn
    with them at once. *)
Theorem platform_clear_then_load (events : list Event) (d : Dataset.t) :
  let cleared := run (events ++ [DataChange None]) in
  let loaded := run (events ++ [DataChange None; DataChange (Some d)]) in
  App.visualization (app cleared) = None
  /\ builder cleared = builder (run events)
  /\ builder loaded = builder (run events)
  /\ App.visualization (app loaded)
     = match ChartBuilder.selectedChart (builder (run events)) with
       | Some chart =>
           Some (GeneratedVisualization.mk chart d
                   (ChartBuilder.customization (builder (run events)))
                   (generateMockPythonCode chart d
                      (ChartBuilder.customization (builder (run events)))))
       | None => None
       end.
Proof.
  cbv zeta. unfold run. rewrite !fold_left_app. cbn [fold_left].
  set (p := fold_left step events (mkPlatform App.initial ChartBuilder.initial)).
  destruct p as [[dataset visualization] [selectedChart customization]].
  destruct selectedChart as [c|]; cbn; auto.
Qed.

(** X24.  For the visualization held after any sequence of events,
    Execute posts the script of the current chart, dataset and
    customization together with that dataset, and sets the loading
    flag; it does nothing only when there is no visualization. *)
Theorem executeCode_begin_current (events : list Event) (st : PreviewPanel.t) :
  match PreviewPanel.executeCode_begin (App.visualization (app (run events))) st with
  | Some (st', request) =>
      exists chart d,
        ChartBuilder.selectedChart (builder (run events)) = Some chart
        /\ App.dataset (app (run events)) = Some d
        /\ PreviewPanel.code request
           = generateMockPythonCode chart d
               (ChartBuilder.customization (builder (run events)))
        /\ PreviewPanel.dataset request = d
        /\ PreviewPanel.url request = "/api/visualization/execute"
        /\ st' = PreviewPanel.mk (PreviewPanel.activeTab st) true
                   (PreviewPanel.previewImage st)
  | None => App.visualization (app (run events)) = None
  end.
Proof.
  pose proof (run_settled events) as S. unfold settled in S. rewrite S.
  unfold ChartBuilder.effect, PreviewPanel.executeCode_begin, PreviewPanel.code_of.
  destruct (ChartBuilder.selectedChart (builder (run events))) as [c|];
    destruct (App.dataset (app (run events))) as [d|]; cbn; auto.
  destruct (String.eqb_spec
              (generateMockPythonCode c d
                 (ChartBuilder.customization (builder (run events)))) "")
    as [E|_].
  - now apply generate_not_empty in E.
  - exists c, d. repeat split.
Qed.

(** X25.  When the response has a truthy [success] and a truthy
    [chart_image], the image becomes the preview, the loading flag is
    cleared and the toast announces success. *)
Theorem executeCode_end_success
    (data : jsval) (st : PreviewPanel.t) :
  truthy (read data "success") = true ->
  truthy (read data "chart_image") = true ->
  PreviewPanel.executeCode_end (inr data) st
  = (PreviewPanel.mk (PreviewPanel.activeTab st) false (read data "chart_image"),
     PreviewPanel.mkToast "Execution successful" (JStr "Visualization updated") None).
Proof.
  unfold PreviewPanel.executeCode_end, read.
  destruct data as [ | |b|n|str|items|fields]; cbn; try discriminate;
    try (destruct (_ =? _)%string; cbn; discriminate).
  intros S I. rewrite S. cbn. rewrite I. reflexivity.
Qed.

Lemma executeCode_end_success_witness :
  truthy (read response_ok "success") = true
  /\ truthy (read response_ok "chart_image") = true
  /\ PreviewPanel.executeCode_end (inr response_ok)
       (PreviewPanel.mk "code" true JNull)
     = (PreviewPanel.mk "code" false (JStr "data:image/png;base64,AAAA"),
        PreviewPanel.mkToast "Execution successful" (JStr "Visualization updated")
          None).
Proof.
  split; [reflexivity|]. split; [reflexivity|].
  apply (executeCode_end_success response_ok (PreviewPanel.mk "code" true JNull));
    reflexivity.
Defined.

(** X26.  In every other case, a failed post, a response without a
    truthy [success] or without a truthy [chart_image], the preview
    keeps the image it had, the loading flag is cleared and the toast is
    a destructive one titled [Error]. *)
Theorem executeCode_end_failure
    (response : js jsval) (st : PreviewPanel.t) :
  (forall data, response = inr data ->
     truthy (read data "success") = false
     \/ truthy (read data "chart_image") = false) ->
  fst (PreviewPanel.executeCode_end response st)
  = PreviewPanel.mk (PreviewPanel.activeTab st) false (PreviewPanel.previewImage st)
  /\ PreviewPanel.title (snd (PreviewPanel.executeCode_end response st)) = "Error"
  /\ PreviewPanel.variant (snd (PreviewPanel.executeCode_end response st))
     = Some "destructive".
Proof.
  unfold PreviewPanel.executeCode_end, read.
  destruct response as [message|data]; [intros _; cbn; auto|].
  intros H. specialize (H data eq_refl).
  destruct data as [ | |b|n|str|items|fields]; cbn in *; auto;
    try (destruct (_ =? _)%string; cbn; auto).
  destruct (truthy match assoc "success" fields with
                   | Some x => x
                   | None => JUndefined
                   end); cbn; auto.
  destruct H as [H|H]; [discriminate H|]. rewrite H. cbn. auto.
Qed.

Lemma executeCode_end_failure_witness :
  truthy (read response_failed "success") = false
  /\ fst (PreviewPanel.executeCode_end (inr response_failed)
            (PreviewPanel.mk "preview" true (JStr "old.png")))
     = PreviewPanel.mk "preview" false (JStr "old.png")
  /\ snd (PreviewPanel.executeCode_end (inr response_failed)
            (PreviewPanel.mk "preview" true (JStr "old.png")))
     = PreviewPanel.error_toast (JStr "NameError: name 'x'").
Proof.
  split; [reflexivity|]. split; [|reflexivity].
  apply (executeCode_end_failure (inr response_failed)
           (PreviewPanel.mk "preview" true (JStr "old.png"))).
  intros data [= <-]. left. reflexivity.
Defined.

(* ================================================================== *)
(** ** The number of lines of a script *)
(* ================================================================== *)

Lemma count_nl_app (a b : string) : count_nl (a ++ b) = (count_nl a + count_nl b)%nat.
Proof.
  induction a as [|c a IH]; [reflexivity|].
  cbn [append count_nl]. rewrite IH. apply Nat.add_assoc.
Qed.

Lemma count_nl_cons (c : ascii) (s : string) :
  count_nl (String c s) = 0%nat ->
  (c =? "010")%char = false /\ count_nl s = 0%nat.
Proof.
  cbn [count_nl]. destruct (c =? "010")%char; [discriminate | auto].
Qed.

Lemma count_nl_json_escape (s : string) : count_nl (json_escape s) = 0%nat.
Proof.
  induction s as [|c s IH]; [reflexivity|].
  cbn [json_escape]. rewrite count_nl_app, IH, Nat.add_0_r.
  destruct c as [[] [] [] [] [] [] [] []]; reflexivity.
Qed.

Lemma count_nl_concat (sep : string) (l : list string) :
  count_nl sep = 0%nat -> Forall (fun s => count_nl s = 0%nat) l ->
  count_nl (String.concat sep l) = 0%nat.
Proof.
  intros Hs H. induction H as [|x l Hx Hl IH]; [reflexivity|].
  destruct l as [|y l]; [exact Hx|].
  change (String.concat sep (x :: y :: l))
    with (x ++ sep ++ String.concat sep (y :: l)).
  now rewrite !count_nl_app, Hx, Hs, IH.
Qed.

Lemma count_nl_JSON_array {A : Type} (item : A -> string) (l : list A) :
  (forall x, count_nl (item x) = 0%nat) ->
  count_nl (JSON_stringify_array item l) = 0%nat.
Proof.
  intros H. unfold JSON_stringify_array.
  rewrite !count_nl_app, count_nl_concat; [reflexivity | reflexivity |].
  apply Forall_forall. intros s I. apply in_map_iff in I as (x & <- & _). apply H.
Qed.

Lemma count_nl_uint (d : Decimal.uint) :
  count_nl (NilEmpty.string_of_uint d) = 0%nat.
Proof. induction d; cbn; auto. Qed.

Lemma count_nl_digits_of_Z (z : Z) : count_nl (digits_of_Z z) = 0%nat.
Proof.
  destruct z; cbn [digits_of_Z]; unfold digits_of_pos;
    rewrite ?count_nl_app, ?count_nl_uint; reflexivity.
Qed.

Lemma count_nl_strip (s : string) :
  count_nl s = 0%nat -> count_nl (strip_trailing_zeros s) = 0%nat.
Proof.
  induction s as [|c s IH]; [reflexivity|].
  intros H. apply count_nl_cons in H as [Hc Hs].
  cbn [strip_trailing_zeros].
  destruct ((strip_trailing_zeros s =? "")%string && (c =? "0")%char);
    [reflexivity|].
  cbn [count_nl]. now rewrite Hc, IH.
Qed.

Lemma count_nl_substring (s : string) (n m : nat) :
  count_nl s = 0%nat -> count_nl (substring n m s) = 0%nat.
Proof.
  revert n m. induction s as [|c s IH]; intros n m H.
  - destruct n, m; reflexivity.
  - apply count_nl_cons in H as [Hc Hs].
    destruct n as [|n]; [destruct m as [|m]; [reflexivity|]|]; cbn [substring].
    + cbn [count_nl]. now rewrite Hc, IH.
    + now apply IH.
Qed.

Lemma count_nl_repeat_zero (n : nat) : count_nl (repeat_string "0" n) = 0%nat.
Proof. induction n as [|n IH]; [reflexivity | exact IH]. Qed.

(** A number is printed on one line. *)
Lemma count_nl_Number_toString (x : number) : count_nl (Number_toString x) = 0%nat.
Proof.
  assert (P : forall p sc, count_nl (Number_toString_pos p sc) = 0%nat).
  { intros p sc. unfold Number_toString_pos.
    assert (A : count_nl (digits_of_pos p) = 0%nat) by apply count_nl_uint.
    pose proof (count_nl_strip _ A) as S.
    generalize dependent (strip_trailing_zeros (digits_of_pos p)).
    generalize (String.length (digits_of_pos p)).
    intros len s S. cbv zeta.
    repeat match goal with
           | |- context [if ?b then _ else _] => destruct b
           end.
    - now rewrite count_nl_app, count_nl_repeat_zero, S.
    - rewrite !count_nl_app, !count_nl_substring by exact S. reflexivity.
    - now rewrite !count_nl_app, count_nl_repeat_zero, S.
    - destruct s as [|c rest]; [reflexivity|].
      apply count_nl_cons in S as [Sc Sr].
      destruct rest as [|c' r];
        rewrite !count_nl_app, ?Sr, count_nl_digits_of_Z;
        cbn [count_nl]; rewrite Sc; reflexivity.
    - destruct s as [|c rest]; [reflexivity|].
      apply count_nl_cons in S as [Sc Sr].
      destruct rest as [|c' r];
        rewrite !count_nl_app, ?Sr, count_nl_digits_of_Z;
        cbn [count_nl]; rewrite Sc; reflexivity. }
  unfold Number_toString. destruct (mant x); [reflexivity | apply P |].
  rewrite count_nl_app, P. reflexivity.
Qed.

Lemma count_nl_element_text (l : list string) (i : nat) :
  Forall (fun c => count_nl c = 0%nat) l -> count_nl (element_text l i) = 0%nat.
Proof.
  intros H. unfold element_text.
  destruct (nth_error l i) as [c|] eqn:E; [|reflexivity].
  apply nth_error_In in E. revert c E. now apply Forall_forall.
Qed.

(** X27.  The line count shown above the code depends on the chart id
    and on the presence of [values] only, as long as the dataset name
    and the palette hold no line feed: labels, numbers, theme and size
    never add a line. *)
Theorem generate_line_count
    (ct : ChartDescriptor.t) (ds : Dataset.t) (cu : Customization.t) :
  count_nl (Dataset.name ds) = 0%nat ->
  count_nl (ColorScheme.value (Customization.colors cu)) = 0%nat ->
  Forall (fun c => count_nl c = 0%nat) (ColorScheme.colors (Customization.colors cu)) ->
  line_count (generateMockPythonCode ct ds cu)
  = ((if has_values (Dataset.values ds) then 22 else 20)
     + (if (ChartDescriptor.id ct =? "matplotlib_line")%string then 10
        else if (ChartDescriptor.id ct =? "matplotlib_bar")%string then 16
        else if (ChartDescriptor.id ct =? "seaborn_heatmap")%string then 11
        else if (ChartDescriptor.id ct =? "plotly_interactive")%string then 30
        else 6))%nat.
Proof.
  intros Hname Hvalue Hcolors.
  pose proof (count_nl_element_text _ 0 Hcolors) as Hc0.
  pose proof (count_nl_element_text _ 1 Hcolors) as Hc1.
  pose proof (count_nl_JSON_array JSON_stringify_string (Dataset.rows ds)) as Hrows.
  pose proof (count_nl_JSON_array Number_toString (Dataset.cols ds)
                count_nl_Number_toString) as Hcols.
  pose proof (count_nl_JSON_array Number_toString
                (match Dataset.values ds with Some l => l | None => [] end)
                count_nl_Number_toString) as Hvalues.
  pose proof (count_nl_Number_toString (div100 (Size.width (Customization.size cu)))) as Hw100.
  pose proof (count_nl_Number_toString (div100 (Size.height (Customization.size cu)))) as Hh100.
  pose proof (count_nl_Number_toString (number_of_Z (Size.width (Customization.size cu)))) as Hw.
  pose proof (count_nl_Number_toString (number_of_Z (Size.height (Customization.size cu)))) as Hh.
  assert (Hr : count_nl (JSON_stringify_strings (Dataset.rows ds)) = 0%nat).
  { apply Hrows. intros x. unfold JSON_stringify_string.
    now rewrite !count_nl_app, count_nl_json_escape. }
  clear Hrows.
  unfold line_count, generateMockPythonCode, JSON_stringify_numbers in *. cbv zeta.
  destruct (has_values (Dataset.values ds));
    destruct (strict_eq_string (Customization.theme cu) "dark");
    repeat match goal with
           | |- context [if (ChartDescriptor.id ct =? ?s)%string then _ else _] =>
               destruct (ChartDescriptor.id ct =? s)%string
           end;
    cbn [lines String.concat];
    rewrite !count_nl_app;
    rewrite ?Hname, ?Hvalue, ?Hc0, ?Hc1, ?Hr, ?Hcols, ?Hvalues,
      ?Hw100, ?Hh100, ?Hw, ?Hh;
    reflexivity.
Qed.

Lemma generate_line_count_witness :
  count_nl (Dataset.name dataset_weighted) = 0%nat
  /\ line_count (generateMockPythonCode chart_bar dataset_weighted initialCustomization)
     = 38%nat.
Proof.
  split; [reflexivity|].
  apply (generate_line_count chart_bar dataset_weighted initialCustomization);
    [reflexivity | reflexivity |].
  repeat constructor.
Defined.

(** X28.  The theme selector never changes the script: it stores a
    catalog entry or [undefined], never the string the generator looks
    for, so every selection gives the script of every other. *)
Theorem theme_selection_has_no_effect
    (ct : ChartDescriptor.t) (ds : Dataset.t) (cu : Customization.t)
    (value1 value2 : string) :
  generateMockPythonCode ct ds (onThemeChange value1 cu)
  = generateMockPythonCode ct ds (onThemeChange value2 cu).
Proof.
  assert (N : forall value,
             strict_eq_string (Customization.theme (onThemeChange value cu)) "dark"
             = false).
  { intros value. destruct (onThemeChange_theme value cu) as [I| ->];
      [now apply catalog_theme_not_dark_string | reflexivity]. }
  assert (K : forall value,
             Customization.colors (onThemeChange value cu) = Customization.colors cu
             /\ Customization.size (onThemeChange value cu) = Customization.size cu).
  { intros value. destruct cu. split; reflexivity. }
  destruct (K value1) as [C1 S1]. destruct (K value2) as [C2 S2].
  unfold generateMockPythonCode. cbv zeta.
  now rewrite C1, C2, S1, S2, !N.
Qed.

(* ================================================================== *)
(** ** The figure size of a whole number of hundreds of pixels *)
(* ================================================================== *)

(** A whole number of hundreds that is a safe integer, divided by 100,
    is printed as the number of hundreds. *)
Lemma Number_toString_hundreds (k : Z) :
  Z.abs (100 * k) < 2 ^ 53 ->
  Number_toString (div100 (100 * k)) = digits_of_Z k.
Proof.
  intros H. unfold div100.
  rewrite double_of_Z_safe by exact H.
  rewrite Z.mul_comm, Z.mod_mul, Z.div_mul by lia. cbn [Z.eqb].
  apply Number_toString_whole. lia.
Qed.

(** X29.  When the width and the height of the size are whole hundreds
    of pixels and safe integers (below [2^53] in magnitude), as in
    every preset, the figure size of the script is the pair of the
    numbers of hundreds, written without a decimal point. *)
Theorem figure_size_hundreds
    (ct : ChartDescriptor.t) (ds : Dataset.t) (cu : Customization.t) (a b : Z) :
  Size.width (Customization.size cu) = 100 * a ->
  Size.height (Customization.size cu) = 100 * b ->
  Z.abs (Size.width (Customization.size cu)) < 2 ^ 53 ->
  Z.abs (Size.height (Customization.size cu)) < 2 ^ 53 ->
  Includes
    (nl ++ "figure_size = (" ++ digits_of_Z a ++ ", " ++ digits_of_Z b ++ ")" ++ nl)
    (generateMockPythonCode ct ds cu).
Proof.
  intros Hw Hh La Lb. rewrite Hw in La. rewrite Hh in Lb.
  destruct (generate_split ct ds cu) as (body & -> & _).
  apply Includes_app_l. unfold common_preamble. cbv zeta.
  do 2 apply Includes_app_r.
  rewrite Hw, Hh, !Number_toString_hundreds by assumption.
  generalize (if strict_eq_string (Customization.theme cu) "dark"
              then "dark_background" else "default").
  generalize (digits_of_Z a). generalize (digits_of_Z b).
  intros tb ta style. flatten. search.
Qed.

Lemma figure_size_hundreds_witness :
  Size.width (Customization.size
                (updateCustomization (Set_size (nth 2 mock_sizes size_medium))
                   initialCustomization)) = 100 * 16
  /\ Z.abs (Size.width (Customization.size
                (updateCustomization (Set_size (nth 2 mock_sizes size_medium))
                   initialCustomization))) < 2 ^ 53
  /\ Includes (nl ++ "figure_size = (16, 10)" ++ nl)
       (generateMockPythonCode chart_bar dataset_T
          (updateCustomization (Set_size (nth 2 mock_sizes size_medium))
             initialCustomization)).
Proof.
  split; [reflexivity|]. split; [reflexivity|].
  apply (figure_size_hundreds chart_bar dataset_T
           (updateCustomization (Set_size (nth 2 mock_sizes size_medium))
              initialCustomization) 16 10); reflexivity.
Defined.
